(** * wand.drawing: the Drawing façade over the native drawing wand

    A shallow embedding of [wand/drawing.py]: the enumerated-option,
    real-valued and stroke-colour properties, construction and cloning,
    rectangle, the coordinate-list shapes and the path operators.  Python
    values are a small universe [pyval]; a method of [Drawing] is a
    computation in a state-and-exception monad over a [world] that holds
    the Python-side [Drawing] objects, the native library's heap (drawing
    wands, pixel wands, ctypes buffers) and the sequence of calls that
    crossed into the native library. *)

From Stdlib Require Import ZArith Floats String List Lia.
From stdpp Require Import gmap strings list.
Import ListNotations.

Set Warnings "-register-all".
Local Open Scope string_scope.
Local Open Scope Z_scope.

(** ** Python values *)

(** Identity of a Python object, and a native pointer. *)
Definition oid := positive.
Definition handle := positive.

(** The bytes of a C [MagickPixelPacket], as [Color.raw] carries them. *)
Definition MagickPixelPacket := list Z.

Inductive pyval :=
| PyNone
| PyBool (b : bool)
| PyInt (z : Z)
| PyFloat (f : float)
| PyStr (s : string)
| PyTuple (items : list pyval)
| PyList (items : list pyval)
| PyColor (raw : MagickPixelPacket)   (* a wand.color.Color *)
| PyDrawing (o : oid).                (* a reference to a Drawing object *)

Inductive exn :=
| TypeError
| ValueError
| IndexError
| OverflowError
| ArgumentError                (* ctypes.ArgumentError *)
| DestroyedResourceError
| WandLibraryVersionError
| WandException (message : string).

(** *** numbers.Real: int, bool and float *)

Inductive pynum := NInt (z : Z) | NFloat (f : float).

Definition as_real (v : pyval) : option pynum :=
  match v with
  | PyBool b => Some (NInt (Z.b2z b))
  | PyInt z => Some (NInt z)
  | PyFloat f => Some (NFloat f)
  | _ => None
  end.

(** [isinstance(v, numbers.Real)] *)
Definition is_Real (v : pyval) : bool :=
  match as_real v with Some _ => true | None => false end.

(** Modelled from the spec: [compat.string_type], the host language's
    string type; [isinstance(v, string_type)]. *)
Definition is_string (v : pyval) : bool :=
  match v with PyStr _ => true | _ => false end.

(** Exact comparison of a Python int with a float: the float is read as
    the dyadic rational it denotes.  [None] when the float is a NaN. *)
Definition Z_float_compare (z : Z) (f : float) : option comparison :=
  match Prim2SF f with
  | S754_nan => None
  | S754_infinity s => Some (if s then Gt else Lt)
  | S754_zero _ => Some (z ?= 0)
  | S754_finite s m e =>
      let v := if s then Z.neg m else Z.pos m in
      Some (if 0 <=? e then z ?= v * 2 ^ e else z * 2 ^ (- e) ?= v)
  end.

(** [a < b] and [a == b] on numbers: exact between ints, IEEE between
    floats, and exact again between an int and a float. *)
Definition num_lt (a b : pynum) : bool :=
  match a, b with
  | NInt x, NInt y => x <? y
  | NInt x, NFloat g =>
      match Z_float_compare x g with Some Lt => true | _ => false end
  | NFloat f, NInt y =>
      match Z_float_compare y f with Some Gt => true | _ => false end
  | NFloat f, NFloat g => (f <? g)%float
  end.

Definition num_eq (a b : pynum) : bool :=
  match a, b with
  | NInt x, NInt y => x =? y
  | NInt x, NFloat g | NFloat g, NInt x =>
      match Z_float_compare x g with Some Eq => true | _ => false end
  | NFloat f, NFloat g => (f =? g)%float
  end.

(** [float(z)] for an int: correctly rounded, [OverflowError] when the
    int is too large for a double. *)
Definition float_of_int (z : Z) : exn + float :=
  let f := SF2Prim (binary_normalize prec emax z 0 false) in
  if PrimFloat.is_infinity f then inl OverflowError else inr f.

Definition num_to_float (a : pynum) : exn + float :=
  match a with
  | NInt z => float_of_int z
  | NFloat f => inr f
  end.

(** [a + b] on numbers. *)
Definition num_add (a b : pynum) : exn + pynum :=
  match a, b with
  | NInt x, NInt y => inr (NInt (x + y))
  | _, _ =>
      match num_to_float a, num_to_float b with
      | inr f, inr g => inr (NFloat (f + g)%float)
      | inl e, _ => inl e
      | _, inl e => inl e
      end
  end.

Definition num_value (a : pynum) : pyval :=
  match a with NInt z => PyInt z | NFloat f => PyFloat f end.

(** *** Truth value, equality, membership *)

(** [bool(v)] *)
Definition truthy (v : pyval) : bool :=
  match v with
  | PyNone => false
  | PyBool b => b
  | PyInt z => negb (z =? 0)
  | PyFloat f => negb (f =? 0)%float
  | PyStr s => negb (String.eqb s "")
  | PyTuple l | PyList l => match l with [] => false | _ => true end
  | PyColor _ | PyDrawing _ => true
  end.

Definition packet_eqb (a b : MagickPixelPacket) : bool :=
  bool_decide (a = b).

(** [a == b].  Numbers compare by value, strings by content, sequences
    element-wise within the same type, objects by identity. *)
Fixpoint py_eq (a b : pyval) {struct a} : bool :=
  let fix all2 (xs ys : list pyval) {struct xs} : bool :=
    match xs, ys with
    | [], [] => true
    | x :: xs', y :: ys' => py_eq x y && all2 xs' ys'
    | _, _ => false
    end in
  match a, b with
  | PyNone, PyNone => true
  | PyStr s, PyStr t => String.eqb s t
  | PyTuple xs, PyTuple ys => all2 xs ys
  | PyList xs, PyList ys => all2 xs ys
  | PyColor r, PyColor r' => packet_eqb r r'
  | PyDrawing o, PyDrawing o' => Pos.eqb o o'
  | _, _ =>
      match as_real a, as_real b with
      | Some x, Some y => num_eq x y
      | _, _ => false
      end
  end.

(** [v in t] for a tuple [t]. *)
Definition py_in (v : pyval) (t : list pyval) : bool :=
  existsb (py_eq v) t.

(** [t.index(v)]: position of the first element equal to [v]. *)
Fixpoint py_index (t : list pyval) (v : pyval) : option Z :=
  match t with
  | [] => None
  | x :: t' => if py_eq x v then Some 0 else option_map Z.succ (py_index t' v)
  end.

(** [t[i]] on a tuple or list: negative indices count from the end. *)
Definition seq_getitem (t : list pyval) (i : Z) : exn + pyval :=
  let n := Z.of_nat (length t) in
  let j := if i <? 0 then i + n else i in
  if (0 <=? j) && (j <? n)
  then match t !! Z.to_nat j with Some x => inr x | None => inl IndexError end
  else inl IndexError.

(** [v[i]] for an arbitrary value. *)
Definition py_getitem (v : pyval) (i : Z) : exn + pyval :=
  match v with
  | PyTuple l | PyList l => seq_getitem l i
  | PyStr s =>
      seq_getitem (map (fun c => PyStr (String c EmptyString)) (list_ascii_of_string s)) i
  | _ => inl TypeError
  end.

(** [a, b = v] *)
Definition unpack2 (v : pyval) : exn + (pyval * pyval) :=
  match v with
  | PyTuple [a; b] | PyList [a; b] => inr (a, b)
  | PyTuple _ | PyList _ => inl ValueError
  | PyStr s =>
      match list_ascii_of_string s with
      | [a; b] => inr (PyStr (String a EmptyString), PyStr (String b EmptyString))
      | _ => inl ValueError
      end
  | _ => inl TypeError
  end.

(** ** The native library

    None of ImageMagick is part of the repository: what follows is the
    reference behaviour of the entry points [wand.api.library] binds, as
    far as the façade observes it.  A drawing wand is a bag of attributes
    (the current graphic context), the vector instructions appended so far
    and the last-error channel. *)

Inductive attr :=
| ClipRule | ClipUnits | FillRule | StrokeLineCap | StrokeLineJoin
| TextAlignment | TextDecoration | TextDirection | Gravity
| FontSize | StrokeWidth | TextInterlineSpacing | StrokeColor.

#[global] Instance attr_eq_dec : EqDecision attr.
Proof. solve_decision. Defined.

Definition attr_code (a : attr) : positive :=
  match a with
  | ClipRule => 1 | ClipUnits => 2 | FillRule => 3 | StrokeLineCap => 4
  | StrokeLineJoin => 5 | TextAlignment => 6 | TextDecoration => 7
  | TextDirection => 8 | Gravity => 9 | FontSize => 10 | StrokeWidth => 11
  | TextInterlineSpacing => 12 | StrokeColor => 13
  end%positive.

Definition attr_of_code (p : positive) : attr :=
  match p with
  | 1 => ClipRule | 2 => ClipUnits | 3 => FillRule | 4 => StrokeLineCap
  | 5 => StrokeLineJoin | 6 => TextAlignment | 7 => TextDecoration
  | 8 => TextDirection | 9 => Gravity | 10 => FontSize | 11 => StrokeWidth
  | 12 => TextInterlineSpacing | _ => StrokeColor
  end%positive.

#[global] Instance attr_countable : Countable attr :=
  inj_countable' attr_code attr_of_code ltac:(by intros []).

Inductive native_fn :=
| NewDrawingWand | CloneDrawingWand | IsDrawingWand
| DrawGetException | DrawClearException
| NewPixelWand | DestroyPixelWand | PixelSetMagickColor | PixelGetMagickColor
| DrawGet (a : attr) | DrawSet (a : attr)
| DrawRectangle | DrawPolygon | DrawPolyline | DrawBezier
| DrawPathStart | DrawPathFinish | DrawPathClose
| DrawPathMoveToAbsolute | DrawPathMoveToRelative
| DrawPathLineToAbsolute | DrawPathLineToRelative
| DrawPathLineToHorizontalAbsolute | DrawPathLineToHorizontalRelative
| DrawPathLineToVerticalAbsolute | DrawPathLineToVerticalRelative
| DrawPathCurveToAbsolute | DrawPathCurveToRelative
| DrawPathCurveToSmoothAbsolute | DrawPathCurveToSmoothRelative
| DrawPathCurveToQuadraticBezierAbsolute
| DrawPathCurveToQuadraticBezierRelative
| DrawPathCurveToQuadraticBezierSmoothAbsolute
| DrawPathCurveToQuadraticBezierSmoothRelative
| DrawPathEllipticArcAbsolute | DrawPathEllipticArcRelative.

(** The names the façade calls the attribute entry points by. *)
Abbreviation DrawGetClipRule := (DrawGet ClipRule).
Abbreviation DrawSetClipRule := (DrawSet ClipRule).
Abbreviation DrawGetClipUnits := (DrawGet ClipUnits).
Abbreviation DrawSetClipUnits := (DrawSet ClipUnits).
Abbreviation DrawGetFillRule := (DrawGet FillRule).
Abbreviation DrawSetFillRule := (DrawSet FillRule).
Abbreviation DrawGetStrokeLineCap := (DrawGet StrokeLineCap).
Abbreviation DrawSetStrokeLineCap := (DrawSet StrokeLineCap).
Abbreviation DrawGetStrokeLineJoin := (DrawGet StrokeLineJoin).
Abbreviation DrawSetStrokeLineJoin := (DrawSet StrokeLineJoin).
Abbreviation DrawGetTextAlignment := (DrawGet TextAlignment).
Abbreviation DrawSetTextAlignment := (DrawSet TextAlignment).
Abbreviation DrawGetTextDecoration := (DrawGet TextDecoration).
Abbreviation DrawSetTextDecoration := (DrawSet TextDecoration).
Abbreviation DrawGetTextDirection := (DrawGet TextDirection).
Abbreviation DrawSetTextDirection := (DrawSet TextDirection).
Abbreviation DrawGetGravity := (DrawGet Gravity).
Abbreviation DrawSetGravity := (DrawSet Gravity).
Abbreviation DrawGetFontSize := (DrawGet FontSize).
Abbreviation DrawSetFontSize := (DrawSet FontSize).
Abbreviation DrawGetStrokeWidth := (DrawGet StrokeWidth).
Abbreviation DrawSetStrokeWidth := (DrawSet StrokeWidth).
Abbreviation DrawGetTextInterlineSpacing := (DrawGet TextInterlineSpacing).
Abbreviation DrawSetTextInterlineSpacing := (DrawSet TextInterlineSpacing).
Abbreviation DrawGetStrokeColor := (DrawGet StrokeColor).
Abbreviation DrawSetStrokeColor := (DrawSet StrokeColor).

(** A C value at the foreign-function boundary. *)
Inductive cval :=
| CNull
| CInt (z : Z)
| CDouble (f : float)
| CBool (b : bool)
| CPtr (p : handle)
| CStr (s : string)
| CPacket (raw : MagickPixelPacket)
| CArray (a : list float).

(** One call that crossed into the native library. *)
Record call := Call { fn : native_fn; args : list cval }.

Record DrawingWand := Wand {
  attrs : gmap attr cval;
  mvg : list call;              (* vector instructions appended so far *)
  exception : option string     (* the last-error channel *)
}.

(** The library [wand.api] loaded: which optional entry points it
    resolved (an unresolved one is bound to [None]), and the graphic
    context its version gives a new wand. *)
Record loaded_library := Loaded {
  has_DrawGetTextInterlineSpacing : bool;
  has_DrawSetTextInterlineSpacing : bool;
  new_wand_context : gmap attr cval
}.

Record world := World {
  objects : gmap oid (option handle);   (* Drawing objects: their c_resource *)
  wands : gmap handle DrawingWand;
  pixels : gmap handle MagickPixelPacket;
  buffers : gmap handle (list float);   (* ctypes c_double arrays *)
  library : loaded_library;
  trace : list call                     (* native calls, oldest first *)
}.

Definition with_objects (o : gmap oid (option handle)) (w : world) : world :=
  World o (wands w) (pixels w) (buffers w) (library w) (trace w).
Definition with_wands (m : gmap handle DrawingWand) (w : world) : world :=
  World (objects w) m (pixels w) (buffers w) (library w) (trace w).
Definition with_pixels (m : gmap handle MagickPixelPacket) (w : world) : world :=
  World (objects w) (wands w) m (buffers w) (library w) (trace w).
Definition with_buffers (m : gmap handle (list float)) (w : world) : world :=
  World (objects w) (wands w) (pixels w) m (library w) (trace w).
Definition with_trace (t : list call) (w : world) : world :=
  World (objects w) (wands w) (pixels w) (buffers w) (library w) t.

Definition wand_attr (a : attr) (dw : DrawingWand) : cval :=
  default CNull (attrs dw !! a).

Definition set_attr (a : attr) (v : cval) (dw : DrawingWand) : DrawingWand :=
  Wand (<[a := v]> (attrs dw)) (mvg dw) (exception dw).

Definition append_mvg (c : call) (dw : DrawingWand) : DrawingWand :=
  Wand (attrs dw) (mvg dw ++ [c]) (exception dw).

Definition clear_exception (dw : DrawingWand) : DrawingWand :=
  Wand (attrs dw) (mvg dw) None.

Definition NewWand (lib : loaded_library) : DrawingWand :=
  Wand (new_wand_context lib) [] None.

(** Update the wand behind [h]; a pointer to no wand is left alone. *)
Definition on_wand (h : handle) (f : DrawingWand -> DrawingWand) (w : world) : world :=
  match wands w !! h with
  | Some dw => with_wands (<[h := f dw]> (wands w)) w
  | None => w
  end.

(** The entry points that append one vector instruction to the wand. *)
Definition appends_instruction (f : native_fn) : bool :=
  match f with
  | NewDrawingWand | CloneDrawingWand | IsDrawingWand
  | DrawGetException | DrawClearException
  | NewPixelWand | DestroyPixelWand | PixelSetMagickColor | PixelGetMagickColor
  | DrawGet _ | DrawSet _ => false
  | _ => true
  end.

(** What an entry point returns and does to the native heap. *)
Definition native (f : native_fn) (a : list cval) (w : world) : cval * world :=
  match f, a with
  | NewDrawingWand, [] =>
      let h := fresh (dom (wands w)) in
      (CPtr h, with_wands (<[h := NewWand (library w)]> (wands w)) w)
  | CloneDrawingWand, [CPtr h] =>
      match wands w !! h with
      | Some dw =>
          let h' := fresh (dom (wands w)) in
          (CPtr h', with_wands (<[h' := dw]> (wands w)) w)
      | None => (CNull, w)
      end
  | IsDrawingWand, [CPtr h] =>
      (CBool (bool_decide (is_Some (wands w !! h))), w)
  | DrawGetException, [CPtr h] =>
      match wands w !! h with
      | Some dw => (match exception dw with Some m => CStr m | None => CNull end, w)
      | None => (CNull, w)
      end
  | DrawClearException, [CPtr h] => (CBool true, on_wand h clear_exception w)
  | NewPixelWand, [] =>
      let p := fresh (dom (pixels w)) in
      (CPtr p, with_pixels (<[p := []]> (pixels w)) w)
  | DestroyPixelWand, [CPtr p] => (CNull, with_pixels (delete p (pixels w)) w)
  | PixelSetMagickColor, [CPtr p; CPacket raw] =>
      (CNull, with_pixels (<[p := raw]> (pixels w)) w)
  | PixelGetMagickColor, [CPtr p] =>
      (CPacket (default [] (pixels w !! p)), w)
  | DrawGet StrokeColor, [CPtr h; CPtr p] =>
      match wands w !! h with
      | Some dw =>
          match wand_attr StrokeColor dw with
          | CPacket raw => (CNull, with_pixels (<[p := raw]> (pixels w)) w)
          | _ => (CNull, w)
          end
      | None => (CNull, w)
      end
  | DrawSet StrokeColor, [CPtr h; CPtr p] =>
      (CNull, on_wand h (set_attr StrokeColor (CPacket (default [] (pixels w !! p)))) w)
  | DrawGet at_, [CPtr h] =>
      match wands w !! h with
      | Some dw => (wand_attr at_ dw, w)
      | None => (CNull, w)
      end
  | DrawSet at_, [CPtr h; v] => (CNull, on_wand h (set_attr at_ v) w)
  | (DrawPolygon | DrawPolyline | DrawBezier), [CPtr h; CInt n; CPtr b] =>
      let pts := take (Z.to_nat (2 * n)) (default [] (buffers w !! b)) in
      (CNull, on_wand h (append_mvg (Call f [CInt n; CArray pts])) w)
  | _, CPtr h :: rest =>
      if appends_instruction f
      then (CNull, on_wand h (append_mvg (Call f rest)) w)
      else (CNull, w)
  | _, _ => (CNull, w)
  end.

(** ** Computations: state and exceptions *)

Inductive result (A : Type) :=
| Ok (a : A)
| Raise (e : exn).
Arguments Ok {A} a.
Arguments Raise {A} e.

Definition M (A : Type) : Type := world -> result A * world.

Definition ret {A} (a : A) : M A := fun w => (Ok a, w).
Definition raise {A} (e : exn) : M A := fun w => (Raise e, w).
Definition bind {A B} (c : M A) (k : A -> M B) : M B :=
  fun w => match c w with
           | (Ok a, w') => k a w'
           | (Raise e, w') => (Raise e, w')
           end.

Declare Scope py_scope.
Delimit Scope py_scope with py.
Notation "x <- c ;; k" := (bind c (fun x => k))
  (at level 100, c at next level, right associativity) : py_scope.
Notation "c ;; k" := (bind c (fun _ => k))
  (at level 100, right associativity) : py_scope.
Local Open Scope py_scope.

Definition lift {A} (r : exn + A) : M A :=
  match r with inr a => ret a | inl e => raise e end.

(** [try: body finally: cleanup] *)
Definition finally {A} (body : M A) (cleanup : M unit) : M A :=
  fun w => match body w with
           | (r, w1) =>
               match cleanup w1 with
               | (Ok _, w2) => (r, w2)
               | (Raise e, w2) => (Raise e, w2)
               end
           end.

(** Modelled from the spec: [library.f(args)] of [wand.api], a direct
    foreign call that returns before the method does; the call is
    recorded, then the library runs. *)
Definition library_call (f : native_fn) (a : list cval) : M cval :=
  fun w => let '(r, w') := native f a (with_trace (trace w ++ [Call f a]) w) in
           (Ok r, w').

Definition fmap_M {A B} (f : A -> B) (c : M A) : M B :=
  a <- c ;; ret (f a).

Definition get_library : M loaded_library := fun w => (Ok (library w), w).

(** [for i in xs: body(i)] *)
Fixpoint for_each {A} (xs : list A) (body : A -> M unit) : M unit :=
  match xs with
  | [] => ret tt
  | x :: xs' => body x ;; for_each xs' body
  end.

(** Modelled from the spec: [compat.xrange], the integers from 0 up to
    [n] in order; [xrange(0, n)]. *)
Definition xrange (n : Z) : list Z :=
  map Z.of_nat (seq 0 (Z.to_nat n)).

(** ** ctypes and compat *)

(** The Python value of what a native call returned. *)
Definition to_py (c : cval) : pyval :=
  match c with
  | CNull => PyNone
  | CInt z => PyInt z
  | CDouble f => PyFloat f
  | CBool b => PyBool b
  | CPtr p => PyInt (Z.pos p)
  | CStr s => PyStr s
  | CPacket raw => PyColor raw
  | CArray a => PyList (map PyFloat a)
  end.

(** [ctypes.c_double(v)] *)
Definition c_double (v : pyval) : exn + float :=
  match as_real v with
  | Some n => num_to_float n
  | None => inl TypeError
  end.

(** A Python argument handed to a parameter declared [c_double]: every
    failed conversion surfaces as [ctypes.ArgumentError]. *)
Definition c_double_arg (v : pyval) : M cval :=
  match c_double v with
  | inr f => ret (CDouble f)
  | inl _ => raise ArgumentError
  end.

(** [(ctypes.c_double * n)()]: a fresh zero-filled array. *)
Definition new_c_double_array (n : Z) : M handle :=
  fun w => let p := fresh (dom (buffers w)) in
           (Ok p, with_buffers (<[p := replicate (Z.to_nat n) 0%float]> (buffers w)) w).

(** [array[i] = x] on a ctypes array. *)
Definition c_array_setitem (p : handle) (i : Z) (x : float) : M unit :=
  fun w => match buffers w !! p with
           | Some a =>
               if (0 <=? i) && (i <? Z.of_nat (length a))
               then (Ok tt, with_buffers (<[p := <[Z.to_nat i := x]> a]> (buffers w)) w)
               else (Raise IndexError, w)
           | None => (Raise IndexError, w)
           end.

(** Modelled from the spec: [compat.text], which hands a token back as
    a text string of the same characters. *)
Definition text (v : pyval) : pyval := v.

(** [a < b] after the [isinstance(_, numbers.Real)] guards. *)
Definition py_lt (a b : pyval) : exn + bool :=
  match as_real a, as_real b with
  | Some x, Some y => inr (num_lt x y)
  | _, _ => inl TypeError
  end.

(** [a + b] on numbers. *)
Definition py_add (a b : pyval) : exn + pyval :=
  match as_real a, as_real b with
  | Some x, Some y =>
      match num_add x y with inr n => inr (num_value n) | inl e => inl e end
  | _, _ => inl TypeError
  end.

(** [t[i]] for a tuple constant and a Python index. *)
Definition tuple_getitem (t : list pyval) (i : pyval) : exn + pyval :=
  match i with
  | PyInt z => seq_getitem t z
  | PyBool b => seq_getitem t (Z.b2z b)
  | _ => inl TypeError
  end.

(** [t.index(v)] *)
Definition tuple_index (t : list pyval) (v : pyval) : exn + Z :=
  match py_index t v with
  | Some i => inr i
  | None => inl ValueError
  end.

Definition is_None (v : pyval) : bool :=
  match v with PyNone => true | _ => false end.

(** ** Resource and Color

    [wand/resource.py] and [wand/color.py] are not among the sources. *)

(** Modelled from the spec: [Resource.resource], the stored handle of a
    live object; "any access after destruction must fail with a
    distinguished already-closed error". *)
Definition resource (self : oid) : M handle :=
  fun w => match objects w !! self with
           | Some (Some h) => (Ok h, w)
           | _ => (Raise DestroyedResourceError, w)
           end.

(** Modelled from the spec: the setter of [Resource.resource], which
    keeps a handle only if the library recognises it, so that a failed
    allocation fails the constructor. *)
Definition set_resource (self : oid) (wand : cval) : M unit :=
  ok <- library_call IsDrawingWand [wand] ;;
  match ok, wand with
  | CBool true, CPtr h =>
      fun w => (Ok tt, with_objects (<[self := Some h]> (objects w)) w)
  | _, _ => raise TypeError
  end.

(** Modelled from the spec: [Resource.raise_exception]: "the wrapper
    queries the native library's last-error channel and re-raises it as a
    host exception carrying the native message; native error state is then
    cleared".  With nothing in the channel it returns, as its
    unconditional use at the end of [rectangle] requires. *)
Definition raise_exception (self : oid) : M unit :=
  h <- resource self ;;
  e <- library_call DrawGetException [CPtr h] ;;
  match e with
  | CStr m => library_call DrawClearException [CPtr h] ;; raise (WandException m)
  | _ => ret tt
  end.

(** Modelled from the spec: [with color:], the scoped lifetime of the
    pixel wand behind a [Color]; [body] receives [color.resource]. *)
Definition with_color {A} (raw : MagickPixelPacket) (body : cval -> M A) : M A :=
  pixel <- library_call NewPixelWand [] ;;
  library_call PixelSetMagickColor [pixel; CPacket raw] ;;
  finally (body pixel) (library_call DestroyPixelWand [pixel] ;; ret tt).

(** ** wand/drawing.py *)

Definition CLIP_PATH_UNITS : list pyval :=
  [PyStr "undefined_path_units"; PyStr "user_space"; PyStr "user_space_on_use";
   PyStr "object_bounding_box"].

Definition TEXT_ALIGN_TYPES : list pyval :=
  [PyStr "undefined"; PyStr "left"; PyStr "center"; PyStr "right"].

Definition TEXT_DECORATION_TYPES : list pyval :=
  [PyStr "undefined"; PyStr "no"; PyStr "underline"; PyStr "overline";
   PyStr "line_through"].

Definition TEXT_DIRECTION_TYPES : list pyval :=
  [PyStr "undefined"; PyStr "right_to_left"; PyStr "left_to_right"].

Definition GRAVITY_TYPES : list pyval :=
  [PyStr "forget"; PyStr "north_west"; PyStr "north"; PyStr "north_east";
   PyStr "west"; PyStr "center"; PyStr "east"; PyStr "south_west";
   PyStr "south"; PyStr "south_east"; PyStr "static"].

Definition FILL_RULE_TYPES : list pyval :=
  [PyStr "undefined"; PyStr "evenodd"; PyStr "nonzero"].

Definition LINE_CAP_TYPES : list pyval :=
  [PyStr "undefined"; PyStr "butt"; PyStr "round"; PyStr "square"].

Definition LINE_JOIN_TYPES : list pyval :=
  [PyStr "undefined"; PyStr "miter"; PyStr "round"; PyStr "bevel"].

(** The coordinate-marshalling helper of polygon, polyline and bezier:
    the point count and a pointer to the flat [c_double] array. *)
Definition _list_to_point_info (points : pyval) : M (Z * handle) :=
  match points with
  | PyList pts =>
      let point_length := Z.of_nat (length pts) in
      let tuple_size := 2 in
      let point_info_size := point_length * tuple_size in
      point_info <- new_c_double_array point_info_size ;;
      for_each (xrange point_info_size) (fun double_index =>
        let tuple_index := double_index / tuple_size in
        let tuple_offset := double_index mod tuple_size in
        point <- lift (seq_getitem pts tuple_index) ;;
        coordinate <- lift (py_getitem point tuple_offset) ;;
        x <- lift (c_double coordinate) ;;
        c_array_setitem point_info double_index x) ;;
      ret (point_length, point_info)
  | _ => raise TypeError
  end.

(** [float(v)]; [parse] reads a numeric string. *)
Definition py_float (parse : string -> option float) (v : pyval) : exn + float :=
  match v with
  | PyStr s => match parse s with Some f => inr f | None => inl ValueError end
  | _ => match as_real v with
         | Some n => num_to_float n
         | None => inl TypeError
         end
  end.

Module Drawing.

(** [Drawing(drawing)]: a new object, whose handle is a new wand or a
    duplicate of [drawing]'s. *)
Definition __init__ (drawing : pyval) : M pyval :=
  fun w =>
    let self := fresh (dom (objects w)) in
    (wand <- (if negb (truthy drawing) then library_call NewDrawingWand []
              else match drawing with
                   | PyDrawing d =>
                       h <- resource d ;;
                       library_call CloneDrawingWand [CPtr h]
                   | _ => raise TypeError
                   end) ;;
     set_resource self wand ;;
     ret (PyDrawing self))
      (with_objects (<[self := None]> (objects w)) w).

Definition clone (self : oid) : M pyval :=
  __init__ (PyDrawing self).

(** *** Enumerated-option properties *)

Definition clip_rule (self : oid) : M pyval :=
  h <- resource self ;;
  clip_rule <- fmap_M to_py (library_call DrawGetClipRule [CPtr h]) ;;
  lift (tuple_getitem FILL_RULE_TYPES clip_rule).

Definition clip_rule_setter (self : oid) (clip_rule : pyval) : M pyval :=
  if negb (is_string clip_rule) then raise TypeError
  else if negb (py_in clip_rule FILL_RULE_TYPES) then raise ValueError
  else
    h <- resource self ;;
    i <- lift (tuple_index FILL_RULE_TYPES clip_rule) ;;
    library_call DrawSetClipRule [CPtr h; CInt i] ;;
    ret PyNone.

Definition clip_units (self : oid) : M pyval :=
  h <- resource self ;;
  clip_unit <- fmap_M to_py (library_call DrawGetClipUnits [CPtr h]) ;;
  lift (tuple_getitem CLIP_PATH_UNITS clip_unit).

Definition clip_units_setter (self : oid) (clip_unit : pyval) : M pyval :=
  if negb (is_string clip_unit) then raise TypeError
  else if negb (py_in clip_unit CLIP_PATH_UNITS) then raise ValueError
  else
    h <- resource self ;;
    i <- lift (tuple_index CLIP_PATH_UNITS clip_unit) ;;
    library_call DrawSetClipUnits [CPtr h; CInt i] ;;
    ret PyNone.

Definition fill_rule (self : oid) : M pyval :=
  h <- resource self ;;
  fill_rule_index <- fmap_M to_py (library_call DrawGetFillRule [CPtr h]) ;;
  (if negb (py_in fill_rule_index FILL_RULE_TYPES)
   then raise_exception self else ret tt) ;;
  v <- lift (tuple_getitem FILL_RULE_TYPES fill_rule_index) ;;
  ret (text v).

Definition fill_rule_setter (self : oid) (fill_rule : pyval) : M pyval :=
  if negb (is_string fill_rule) then raise TypeError
  else if negb (py_in fill_rule FILL_RULE_TYPES) then raise ValueError
  else
    h <- resource self ;;
    i <- lift (tuple_index FILL_RULE_TYPES fill_rule) ;;
    library_call DrawSetFillRule [CPtr h; CInt i] ;;
    ret PyNone.

Definition stroke_line_cap (self : oid) : M pyval :=
  h <- resource self ;;
  line_cap_index <- fmap_M to_py (library_call DrawGetStrokeLineCap [CPtr h]) ;;
  (if negb (py_in line_cap_index LINE_CAP_TYPES)
   then raise_exception self else ret tt) ;;
  v <- lift (tuple_getitem LINE_CAP_TYPES line_cap_index) ;;
  ret (text v).

Definition stroke_line_cap_setter (self : oid) (line_cap : pyval) : M pyval :=
  if negb (is_string line_cap) then raise TypeError
  else if negb (py_in line_cap LINE_CAP_TYPES) then raise ValueError
  else
    h <- resource self ;;
    i <- lift (tuple_index LINE_CAP_TYPES line_cap) ;;
    library_call DrawSetStrokeLineCap [CPtr h; CInt i] ;;
    ret PyNone.

Definition stroke_line_join (self : oid) : M pyval :=
  h <- resource self ;;
  line_join_index <- fmap_M to_py (library_call DrawGetStrokeLineJoin [CPtr h]) ;;
  (if negb (py_in line_join_index LINE_JOIN_TYPES)
   then raise_exception self else ret tt) ;;
  v <- lift (tuple_getitem LINE_JOIN_TYPES line_join_index) ;;
  ret (text v).

Definition stroke_line_join_setter (self : oid) (line_join : pyval) : M pyval :=
  if negb (is_string line_join) then raise TypeError
  else if negb (py_in line_join LINE_JOIN_TYPES) then raise ValueError
  else
    h <- resource self ;;
    i <- lift (tuple_index LINE_JOIN_TYPES line_join) ;;
    library_call DrawSetStrokeLineJoin [CPtr h; CInt i] ;;
    ret PyNone.

Definition text_alignment (self : oid) : M pyval :=
  h <- resource self ;;
  text_alignment_index <- fmap_M to_py (library_call DrawGetTextAlignment [CPtr h]) ;;
  (if negb (truthy text_alignment_index)
   then raise_exception self else ret tt) ;;
  v <- lift (tuple_getitem TEXT_ALIGN_TYPES text_alignment_index) ;;
  ret (text v).

Definition text_alignment_setter (self : oid) (align : pyval) : M pyval :=
  if negb (is_string align) then raise TypeError
  else if negb (py_in align TEXT_ALIGN_TYPES) then raise ValueError
  else
    h <- resource self ;;
    i <- lift (tuple_index TEXT_ALIGN_TYPES align) ;;
    library_call DrawSetTextAlignment [CPtr h; CInt i] ;;
    ret PyNone.

Definition text_decoration (self : oid) : M pyval :=
  h <- resource self ;;
  text_decoration_index <- fmap_M to_py (library_call DrawGetTextDecoration [CPtr h]) ;;
  (if negb (truthy text_decoration_index)
   then raise_exception self else ret tt) ;;
  v <- lift (tuple_getitem TEXT_DECORATION_TYPES text_decoration_index) ;;
  ret (text v).

Definition text_decoration_setter (self : oid) (decoration : pyval) : M pyval :=
  if negb (is_string decoration) then raise TypeError
  else if negb (py_in decoration TEXT_DECORATION_TYPES) then raise ValueError
  else
    h <- resource self ;;
    i <- lift (tuple_index TEXT_DECORATION_TYPES decoration) ;;
    library_call DrawSetTextDecoration [CPtr h; CInt i] ;;
    ret PyNone.

Definition text_direction (self : oid) : M pyval :=
  h <- resource self ;;
  text_direction_index <- fmap_M to_py (library_call DrawGetTextDirection [CPtr h]) ;;
  (if negb (truthy text_direction_index)
   then raise_exception self else ret tt) ;;
  v <- lift (tuple_getitem TEXT_DIRECTION_TYPES text_direction_index) ;;
  ret (text v).

Definition text_direction_setter (self : oid) (direction : pyval) : M pyval :=
  if negb (is_string direction) then raise TypeError
  else if negb (py_in direction TEXT_DIRECTION_TYPES) then raise ValueError
  else
    h <- resource self ;;
    i <- lift (tuple_index TEXT_DIRECTION_TYPES direction) ;;
    library_call DrawSetTextDirection [CPtr h; CInt i] ;;
    ret PyNone.

Definition gravity (self : oid) : M pyval :=
  h <- resource self ;;
  gravity_index <- fmap_M to_py (library_call DrawGetGravity [CPtr h]) ;;
  (if negb (truthy gravity_index)
   then raise_exception self else ret tt) ;;
  v <- lift (tuple_getitem GRAVITY_TYPES gravity_index) ;;
  ret (text v).

Definition gravity_setter (self : oid) (value : pyval) : M pyval :=
  if negb (is_string value) then raise TypeError
  else if negb (py_in value GRAVITY_TYPES) then raise ValueError
  else
    h <- resource self ;;
    i <- lift (tuple_index GRAVITY_TYPES value) ;;
    library_call DrawSetGravity [CPtr h; CInt i] ;;
    ret PyNone.

(** *** Real-valued properties *)

Definition font_size (self : oid) : M pyval :=
  h <- resource self ;;
  fmap_M to_py (library_call DrawGetFontSize [CPtr h]).

Definition font_size_setter (self : oid) (size : pyval) : M pyval :=
  if negb (is_Real size) then raise TypeError
  else
    negative <- lift (py_lt size (PyFloat 0)) ;;
    if negative : bool then raise ValueError
    else
      h <- resource self ;;
      x <- c_double_arg size ;;
      library_call DrawSetFontSize [CPtr h; x] ;;
      ret PyNone.

Definition stroke_width (self : oid) : M pyval :=
  h <- resource self ;;
  fmap_M to_py (library_call DrawGetStrokeWidth [CPtr h]).

Definition stroke_width_setter (self : oid) (width : pyval) : M pyval :=
  if negb (is_Real width) then raise TypeError
  else
    negative <- lift (py_lt width (PyFloat 0)) ;;
    if negative : bool then raise ValueError
    else
      h <- resource self ;;
      x <- c_double_arg width ;;
      library_call DrawSetStrokeWidth [CPtr h; x] ;;
      ret PyNone.

Definition text_interline_spacing (self : oid) : M pyval :=
  lib <- get_library ;;
  if negb (has_DrawGetTextInterlineSpacing lib) then raise WandLibraryVersionError
  else
    h <- resource self ;;
    fmap_M to_py (library_call DrawGetTextInterlineSpacing [CPtr h]).

Definition text_interline_spacing_setter (self : oid) (spacing : pyval) : M pyval :=
  lib <- get_library ;;
  if negb (has_DrawSetTextInterlineSpacing lib) then raise WandLibraryVersionError
  else if negb (is_Real spacing) then raise TypeError
  else
    h <- resource self ;;
    x <- c_double_arg spacing ;;
    library_call DrawSetTextInterlineSpacing [CPtr h; x] ;;
    ret PyNone.

(** *** Stroke colour *)

Definition stroke_color (self : oid) : M pyval :=
  pixel <- library_call NewPixelWand [] ;;
  h <- resource self ;;
  library_call DrawGetStrokeColor [CPtr h; pixel] ;;
  buffer <- library_call PixelGetMagickColor [pixel] ;;
  ret (to_py buffer).

Definition stroke_color_setter (self : oid) (color : pyval) : M pyval :=
  match color with
  | PyColor raw =>
      with_color raw (fun pixel =>
        h <- resource self ;;
        library_call DrawSetStrokeColor [CPtr h; pixel] ;;
        ret PyNone)
  | _ => raise TypeError
  end.

(** *** Immediate shapes *)

Definition rectangle (self : oid) (left top right bottom width height : pyval)
  : M pyval :=
  if is_None left then raise TypeError
  else if is_None top then raise TypeError
  else if is_None right && is_None width then raise TypeError
  else if is_None bottom && is_None height then raise TypeError
  else if negb (is_None right || is_None width) then raise TypeError
  else if negb (is_None bottom || is_None height) then raise TypeError
  else if negb (is_Real left) then raise TypeError
  else if negb (is_Real top) then raise TypeError
  else if negb (is_None right || is_Real right) then raise TypeError
  else if negb (is_None bottom || is_Real bottom) then raise TypeError
  else if negb (is_None width || is_Real width) then raise TypeError
  else if negb (is_None height || is_Real height) then raise TypeError
  else
    right <- (if is_None right then
                negative <- lift (py_lt width (PyInt 0)) ;;
                if negative : bool then raise ValueError
                else lift (py_add left width)
              else
                less <- lift (py_lt right left) ;;
                if less : bool then raise ValueError else ret right) ;;
    bottom <- (if is_None bottom then
                 negative <- lift (py_lt height (PyInt 0)) ;;
                 if negative : bool then raise ValueError
                 else lift (py_add top height)
               else
                 less <- lift (py_lt bottom top) ;;
                 if less : bool then raise ValueError else ret bottom) ;;
    h <- resource self ;;
    l <- c_double_arg left ;;
    t <- c_double_arg top ;;
    r <- c_double_arg right ;;
    b <- c_double_arg bottom ;;
    library_call DrawRectangle [CPtr h; l; t; r; b] ;;
    raise_exception self ;;
    ret PyNone.

Definition polygon (self : oid) (points : pyval) : M pyval :=
  info <- _list_to_point_info points ;;
  h <- resource self ;;
  library_call DrawPolygon [CPtr h; CInt (fst info); CPtr (snd info)] ;;
  ret PyNone.

Definition polyline (self : oid) (points : pyval) : M pyval :=
  info <- _list_to_point_info points ;;
  h <- resource self ;;
  library_call DrawPolyline [CPtr h; CInt (fst info); CPtr (snd info)] ;;
  ret PyNone.

Definition bezier (self : oid) (points : pyval) : M pyval :=
  info <- _list_to_point_info points ;;
  h <- resource self ;;
  library_call DrawBezier [CPtr h; CInt (fst info); CPtr (snd info)] ;;
  ret PyNone.

(** *** Path-construction operators *)

Section path_operators.

(** Python's reading of a numeric string, which [float()] applies to a
    [str] argument. *)
Variable parse : string -> option float.

Definition float_arg (v : pyval) : M cval :=
  fmap_M CDouble (lift (py_float parse v)).

Definition bool_arg (v : pyval) : cval := CBool (truthy v).

Definition path_close (self : oid) : M pyval :=
  h <- resource self ;;
  library_call DrawPathClose [CPtr h] ;;
  ret (PyDrawing self).

Definition path_curve (self : oid) (to controls smooth relative : pyval) : M pyval :=
  if is_None to then raise TypeError
  else if is_None controls then raise TypeError
  else
    xy <- lift (unpack2 to) ;;
    let x := fst xy in let y := snd xy in
    if truthy smooth then
      xy2 <- lift (unpack2 controls) ;;
      let x2 := fst xy2 in let y2 := snd xy2 in
      h <- resource self ;;
      a1 <- c_double_arg x2 ;;
      a2 <- c_double_arg y2 ;;
      a3 <- c_double_arg x ;;
      a4 <- c_double_arg y ;;
      library_call (if truthy relative then DrawPathCurveToSmoothRelative
                    else DrawPathCurveToSmoothAbsolute)
                   [CPtr h; a1; a2; a3; a4] ;;
      ret (PyDrawing self)
    else
      cs <- lift (unpack2 controls) ;;
      xy1 <- lift (unpack2 (fst cs)) ;;
      xy2 <- lift (unpack2 (snd cs)) ;;
      let x1 := fst xy1 in let y1 := snd xy1 in
      let x2 := fst xy2 in let y2 := snd xy2 in
      h <- resource self ;;
      a1 <- c_double_arg x1 ;;
      a2 <- c_double_arg y1 ;;
      a3 <- c_double_arg x2 ;;
      a4 <- c_double_arg y2 ;;
      a5 <- c_double_arg x ;;
      a6 <- c_double_arg y ;;
      library_call (if truthy relative then DrawPathCurveToRelative
                    else DrawPathCurveToAbsolute)
                   [CPtr h; a1; a2; a3; a4; a5; a6] ;;
      ret (PyDrawing self).

Definition path_curve_to_quadratic_bezier (self : oid)
    (to control smooth relative : pyval) : M pyval :=
  if is_None to then raise TypeError
  else
    xy <- lift (unpack2 to) ;;
    let x := fst xy in let y := snd xy in
    if truthy smooth then
      h <- resource self ;;
      a1 <- float_arg x ;;
      a2 <- float_arg y ;;
      library_call (if truthy relative
                    then DrawPathCurveToQuadraticBezierSmoothRelative
                    else DrawPathCurveToQuadraticBezierSmoothAbsolute)
                   [CPtr h; a1; a2] ;;
      ret (PyDrawing self)
    else if is_None control then raise TypeError
    else
      xy1 <- lift (unpack2 control) ;;
      let x1 := fst xy1 in let y1 := snd xy1 in
      h <- resource self ;;
      a1 <- float_arg x1 ;;
      a2 <- float_arg y1 ;;
      a3 <- float_arg x ;;
      a4 <- float_arg y ;;
      library_call (if truthy relative
                    then DrawPathCurveToQuadraticBezierRelative
                    else DrawPathCurveToQuadraticBezierAbsolute)
                   [CPtr h; a1; a2; a3; a4] ;;
      ret (PyDrawing self).

Definition path_elliptic_arc (self : oid)
    (to radius rotation large_arc clockwise relative : pyval) : M pyval :=
  if is_None to then raise TypeError
  else if is_None radius then raise TypeError
  else
    xy <- lift (unpack2 to) ;;
    let x := fst xy in let y := snd xy in
    rxy <- lift (unpack2 radius) ;;
    let rx := fst rxy in let ry := snd rxy in
    h <- resource self ;;
    a1 <- float_arg rx ;;
    a2 <- float_arg ry ;;
    a3 <- float_arg rotation ;;
    a6 <- float_arg x ;;
    a7 <- float_arg y ;;
    library_call (if truthy relative then DrawPathEllipticArcRelative
                  else DrawPathEllipticArcAbsolute)
                 [CPtr h; a1; a2; a3; bool_arg large_arc; bool_arg clockwise; a6; a7] ;;
    ret (PyDrawing self).

Definition path_finish (self : oid) : M pyval :=
  h <- resource self ;;
  library_call DrawPathFinish [CPtr h] ;;
  ret (PyDrawing self).

Definition path_line (self : oid) (to relative : pyval) : M pyval :=
  if is_None to then raise TypeError
  else
    xy <- lift (unpack2 to) ;;
    let x := fst xy in let y := snd xy in
    h <- resource self ;;
    a1 <- float_arg x ;;
    a2 <- float_arg y ;;
    library_call (if truthy relative then DrawPathLineToRelative
                  else DrawPathLineToAbsolute) [CPtr h; a1; a2] ;;
    ret (PyDrawing self).

Definition path_horizontal_line (self : oid) (x relative : pyval) : M pyval :=
  if is_None x then raise TypeError
  else
    h <- resource self ;;
    a1 <- float_arg x ;;
    library_call (if truthy relative then DrawPathLineToHorizontalRelative
                  else DrawPathLineToHorizontalAbsolute) [CPtr h; a1] ;;
    ret (PyDrawing self).

Definition path_vertical_line (self : oid) (y relative : pyval) : M pyval :=
  if is_None y then raise TypeError
  else
    h <- resource self ;;
    a1 <- float_arg y ;;
    library_call (if truthy relative then DrawPathLineToVerticalRelative
                  else DrawPathLineToVerticalAbsolute) [CPtr h; a1] ;;
    ret (PyDrawing self).

Definition path_move (self : oid) (to relative : pyval) : M pyval :=
  if is_None to then raise TypeError
  else
    xy <- lift (unpack2 to) ;;
    let x := fst xy in let y := snd xy in
    h <- resource self ;;
    a1 <- float_arg x ;;
    a2 <- float_arg y ;;
    library_call (if truthy relative then DrawPathMoveToRelative
                  else DrawPathMoveToAbsolute) [CPtr h; a1; a2] ;;
    ret (PyDrawing self).

Definition path_start (self : oid) : M pyval :=
  h <- resource self ;;
  library_call DrawPathStart [CPtr h] ;;
  ret (PyDrawing self).

End path_operators.

End Drawing.

(** ** The enumerated-option properties, as a family *)

Inductive enum_property :=
| P_clip_rule | P_clip_units | P_fill_rule | P_stroke_line_cap
| P_stroke_line_join | P_text_alignment | P_text_decoration
| P_text_direction | P_gravity.

Definition getter (p : enum_property) : oid -> M pyval :=
  match p with
  | P_clip_rule => Drawing.clip_rule
  | P_clip_units => Drawing.clip_units
  | P_fill_rule => Drawing.fill_rule
  | P_stroke_line_cap => Drawing.stroke_line_cap
  | P_stroke_line_join => Drawing.stroke_line_join
  | P_text_alignment => Drawing.text_alignment
  | P_text_decoration => Drawing.text_decoration
  | P_text_direction => Drawing.text_direction
  | P_gravity => Drawing.gravity
  end.

Definition setter (p : enum_property) : oid -> pyval -> M pyval :=
  match p with
  | P_clip_rule => Drawing.clip_rule_setter
  | P_clip_units => Drawing.clip_units_setter
  | P_fill_rule => Drawing.fill_rule_setter
  | P_stroke_line_cap => Drawing.stroke_line_cap_setter
  | P_stroke_line_join => Drawing.stroke_line_join_setter
  | P_text_alignment => Drawing.text_alignment_setter
  | P_text_decoration => Drawing.text_decoration_setter
  | P_text_direction => Drawing.text_direction_setter
  | P_gravity => Drawing.gravity_setter
  end.

(** The documented fixed token list of each property. *)
Definition tokens (p : enum_property) : list pyval :=
  match p with
  | P_clip_rule | P_fill_rule => FILL_RULE_TYPES
  | P_clip_units => CLIP_PATH_UNITS
  | P_stroke_line_cap => LINE_CAP_TYPES
  | P_stroke_line_join => LINE_JOIN_TYPES
  | P_text_alignment => TEXT_ALIGN_TYPES
  | P_text_decoration => TEXT_DECORATION_TYPES
  | P_text_direction => TEXT_DIRECTION_TYPES
  | P_gravity => GRAVITY_TYPES
  end.

(** The native attribute each property reads and writes. *)
Definition native_attr (p : enum_property) : attr :=
  match p with
  | P_clip_rule => ClipRule
  | P_clip_units => ClipUnits
  | P_fill_rule => FillRule
  | P_stroke_line_cap => StrokeLineCap
  | P_stroke_line_join => StrokeLineJoin
  | P_text_alignment => TextAlignment
  | P_text_decoration => TextDecoration
  | P_text_direction => TextDirection
  | P_gravity => Gravity
  end.

(** How a getter decides that the native query failed. *)
Inductive failure_test :=
| Unchecked          (* clip_rule, clip_units *)
| NotInTokens        (* [index not in TYPES] *)
| ZeroIndex.         (* [not index] *)

Definition getter_test (p : enum_property) : failure_test :=
  match p with
  | P_clip_rule | P_clip_units => Unchecked
  | P_fill_rule | P_stroke_line_cap | P_stroke_line_join => NotInTokens
  | P_text_alignment | P_text_decoration | P_text_direction | P_gravity => ZeroIndex
  end.

(** The one shape all nine setters share. *)
Definition setter_shape (t : list pyval) (a : attr) (self : oid) (v : pyval)
  : M pyval :=
  if negb (is_string v) then raise TypeError
  else if negb (py_in v t) then raise ValueError
  else
    h <- resource self ;;
    i <- lift (tuple_index t v) ;;
    library_call (DrawSet a) [CPtr h; CInt i] ;;
    ret PyNone.

(** The one shape the checked getters share, up to their failure test. *)
Definition getter_shape (failed : pyval -> bool) (t : list pyval) (a : attr)
    (self : oid) : M pyval :=
  h <- resource self ;;
  index <- fmap_M to_py (library_call (DrawGet a) [CPtr h]) ;;
  (if failed index then raise_exception self else ret tt) ;;
  v <- lift (tuple_getitem t index) ;;
  ret (text v).

(** Set, then read back at once. *)
Definition set_then_get (p : enum_property) (self : oid) (v : pyval) : M pyval :=
  setter p self v ;; getter p self.

(** The calls a computation added to the trace. *)
Definition calls_added (w w' : world) (cs : list call) : Prop :=
  trace w' = (trace w ++ cs)%list.

Definition test_fails (k : failure_test) (t : list pyval) (index : pyval) : bool :=
  match k with
  | Unchecked => false
  | NotInTokens => negb (py_in index t)
  | ZeroIndex => negb (truthy index)
  end.

(** A tuple that holds strings only, as every token list does. *)
Definition strings_only (t : list pyval) : Prop :=
  Forall (fun v => is_string v = true) t.

(** A real number below zero. *)
Definition negative_real (v : pyval) : Prop :=
  match v with
  | PyInt z => z < 0
  | PyFloat f => (f <? 0)%float = true
  | _ => False
  end.

(** ** Vocabulary of the statements *)

(** The tail of [rectangle]: the one native call, then the error check. *)
Definition draw_rectangle (self : oid) (left top right bottom : pyval) : M pyval :=
  h <- resource self ;;
  l <- c_double_arg left ;;
  t <- c_double_arg top ;;
  r <- c_double_arg right ;;
  b <- c_double_arg bottom ;;
  library_call DrawRectangle [CPtr h; l; t; r; b] ;;
  raise_exception self ;;
  ret PyNone.

(** (x0, y0, x1, y1, ...) *)
Definition flatten_points (pts : list (float * float)) : list float :=
  flat_map (fun xy => [fst xy; snd xy]) pts.

(** A two-element numeric pair, and the doubles its coordinates convert to. *)
Definition is_point (p : pyval) (xy : float * float) : Prop :=
  exists a b, (p = PyTuple [a; b] \/ p = PyList [a; b])
              /\ c_double a = inr (fst xy) /\ c_double b = inr (snd xy).

(** What one round of the marshalling loop reads:
    [c_double(points[i // 2][i % 2])]. *)
Definition coordinate (pts : list pyval) (double_index : Z) : exn + float :=
  match seq_getitem pts (double_index / 2) with
  | inr point =>
      match py_getitem point (double_index mod 2) with
      | inr c => c_double c
      | inl e => inl e
      end
  | inl e => inl e
  end.

(** The world once the loop has stored the first [k] doubles of [flat]
    in the array it allocated. *)
Definition filled (flat : list float) (w : world) (k : nat) : world :=
  with_buffers
    (<[fresh (dom (buffers w)) :=
         (take k flat ++ replicate (length flat - k) 0%float)%list]> (buffers w)) w.

(** The three shapes drawn from a coordinate list. *)
Inductive point_shape := Polygon | Polyline | Bezier.

Definition draw_points (s : point_shape) : oid -> pyval -> M pyval :=
  match s with
  | Polygon => Drawing.polygon
  | Polyline => Drawing.polyline
  | Bezier => Drawing.bezier
  end.

Definition point_entry (s : point_shape) : native_fn :=
  match s with
  | Polygon => DrawPolygon
  | Polyline => DrawPolyline
  | Bezier => DrawBezier
  end.

Definition is_list (v : pyval) : bool :=
  match v with PyList _ => true | _ => false end.

(** The colour a wand strokes with, as [stroke_color] reads it. *)
Definition wand_stroke_color (dw : DrawingWand) : MagickPixelPacket :=
  match wand_attr StrokeColor dw with
  | CPacket raw => raw
  | _ => []
  end.

(** One call of a path-construction operator, with its arguments. *)
Inductive path_call :=
| PathStart
| PathFinish
| PathClose
| PathMove (to relative : pyval)
| PathLine (to relative : pyval)
| PathHorizontalLine (x relative : pyval)
| PathVerticalLine (y relative : pyval)
| PathCurve (to controls smooth relative : pyval)
| PathCurveToQuadraticBezier (to control smooth relative : pyval)
| PathEllipticArc (to radius rotation large_arc clockwise relative : pyval).

Definition run_path (parse : string -> option float) (c : path_call) (self : oid)
  : M pyval :=
  match c with
  | PathStart => Drawing.path_start self
  | PathFinish => Drawing.path_finish self
  | PathClose => Drawing.path_close self
  | PathMove to relative => Drawing.path_move parse self to relative
  | PathLine to relative => Drawing.path_line parse self to relative
  | PathHorizontalLine x relative => Drawing.path_horizontal_line parse self x relative
  | PathVerticalLine y relative => Drawing.path_vertical_line parse self y relative
  | PathCurve to controls smooth relative =>
      Drawing.path_curve self to controls smooth relative
  | PathCurveToQuadraticBezier to control smooth relative =>
      Drawing.path_curve_to_quadratic_bezier parse self to control smooth relative
  | PathEllipticArc to radius rotation large_arc clockwise relative =>
      Drawing.path_elliptic_arc parse self to radius rotation large_arc clockwise relative
  end.

(** A pair of Python floats. *)
Definition float_pair (v : pyval) : Prop :=
  exists x y, v = PyTuple [PyFloat x; PyFloat y].

(** A [numbers.Real] that a C double can hold: an int, a bool or a float;
    an int beyond the range of a double, on which [float()] raises
    OverflowError, is not one. *)
Definition real_coordinate (v : pyval) : Prop :=
  exists f, c_double v = inr f.

(** A sequence of two such reals: a tuple or a list. *)
Definition real_pair (v : pyval) : Prop :=
  exists x y, (v = PyTuple [x; y] \/ v = PyList [x; y])
              /\ real_coordinate x /\ real_coordinate y.

(** Arguments of the documented types: an end point, a control point or
    a radius is a sequence of two reals, a scalar is a real; the controls
    of a cubic curve that is not smooth are a sequence of two such points.
    The flags may be any value: the operators read their truth value. *)
Definition well_formed (c : path_call) : Prop :=
  match c with
  | PathStart | PathFinish | PathClose => True
  | PathMove to _ | PathLine to _ => real_pair to
  | PathHorizontalLine x _ | PathVerticalLine x _ => real_coordinate x
  | PathCurve to controls smooth _ =>
      real_pair to /\
      if truthy smooth then real_pair controls
      else exists c1 c2, (controls = PyTuple [c1; c2] \/ controls = PyList [c1; c2])
                         /\ real_pair c1 /\ real_pair c2
  | PathCurveToQuadraticBezier to control smooth _ =>
      real_pair to /\ (truthy smooth = false -> real_pair control)
  | PathEllipticArc to radius rotation _ _ _ =>
      real_pair to /\ real_pair radius /\ real_coordinate rotation
  end.

(** *** Sample worlds *)

(** A graphic context with every attribute set. *)
Definition sample_context : gmap attr cval :=
  list_to_map
    [(ClipRule, CInt 1); (ClipUnits, CInt 1); (FillRule, CInt 1);
     (StrokeLineCap, CInt 1); (StrokeLineJoin, CInt 1); (TextAlignment, CInt 1);
     (TextDecoration, CInt 1); (TextDirection, CInt 2); (Gravity, CInt 1);
     (FontSize, CDouble 12); (StrokeWidth, CDouble 1);
     (TextInterlineSpacing, CDouble 0); (StrokeColor, CPacket [0; 0; 0])].

Definition sample_library : loaded_library := Loaded true true sample_context.

Definition sample_wand : DrawingWand := NewWand sample_library.

(** One live Drawing, object 1, on a new wand behind pointer 1. *)
Definition studio : world :=
  World {[ 1%positive := Some 1%positive ]} {[ 1%positive := sample_wand ]}
        ∅ ∅ sample_library [].

(** The same wand after a native call has failed on it: the library has
    left its message in the wand's last-error channel.  No entry point of
    the reference behaviour above fails by itself: a failure is an event
    of the environment.  Of the operations embedded here only rectangle
    and the checked getters ever read the channel, so the message stays
    there until one of them runs. *)
Definition stale_wand : DrawingWand :=
  Wand sample_context [] (Some "MemoryAllocationFailed").

Definition stale_studio : world :=
  World {[ 1%positive := Some 1%positive ]} {[ 1%positive := stale_wand ]}
        ∅ ∅ sample_library [].

(** The same as [studio], on a library too old to export the
    inter-line spacing entry points. *)
Definition old_studio : world :=
  World {[ 1%positive := Some 1%positive ]} {[ 1%positive := sample_wand ]}
        ∅ ∅ (Loaded false false sample_context) [].

(** A [float()] that reads no string. *)
Definition no_parse (s : string) : option float := None.

(** *** Vocabulary of the further properties *)

(** A Drawing that holds no live handle: it was never allocated, or its
    wand has been destroyed. *)
Definition closed (self : oid) (w : world) : Prop :=
  forall h, objects w !! self <> Some (Some h).

(** What a checked getter answers, from the index the wand holds and the
    content of its error channel. *)
Definition read_token (failed : pyval -> bool) (t : list pyval) (c : cval)
    (pending : option string) : result pyval :=
  match (if failed (to_py c) then pending else None) with
  | Some m => Raise (WandException m)
  | None =>
      match tuple_getitem t (to_py c) with
      | inr v => Ok (text v)
      | inl e => Raise e
      end
  end.


(** [isinstance(v, Color)]. *)
Definition is_Color (v : pyval) : bool :=
  match v with PyColor _ => true | _ => false end.

(** A computation that leaves the world as it found it, whatever it
    answers. *)
Definition leaves_world {A} (c : M A) : Prop :=
  forall w r w', c w = (r, w') -> w' = w.

(** The error of the first read that fails, among the rounds [ks] of the
    marshalling loop. *)
Fixpoint first_failure (pts : list pyval) (ks : list Z) : option exn :=
  match ks with
  | [] => None
  | k :: ks' =>
      match coordinate pts k with
      | inl e => Some e
      | inr _ => first_failure pts ks'
      end
  end.

(** The double that round [k] stores. *)
Definition double_at (pts : list pyval) (k : nat) : float :=
  match coordinate pts (Z.of_nat k) with
  | inr x => x
  | inl _ => 0%float
  end.

(** Two worlds that differ at most in their ctypes buffers. *)
Definition only_buffers (w w' : world) : Prop :=
  objects w' = objects w /\ wands w' = wands w /\ pixels w' = pixels w
  /\ library w' = library w /\ trace w' = trace w.

(** One round of the loop of [_list_to_point_info], as the source writes
    it. *)
Definition store_coordinate (pts : list pyval) (p : handle) (double_index : Z)
  : M unit :=
  let tuple_index := double_index / 2 in
  let tuple_offset := double_index mod 2 in
  point <- lift (seq_getitem pts tuple_index) ;;
  coordinate <- lift (py_getitem point tuple_offset) ;;
  x <- lift (c_double coordinate) ;;
  c_array_setitem p double_index x.

(** The native entry point a path operator reaches, as its [relative]
    and [smooth] flags select it. *)
Definition path_entry_point (c : path_call) : native_fn :=
  match c with
  | PathStart => DrawPathStart
  | PathFinish => DrawPathFinish
  | PathClose => DrawPathClose
  | PathMove _ relative =>
      if truthy relative then DrawPathMoveToRelative else DrawPathMoveToAbsolute
  | PathLine _ relative =>
      if truthy relative then DrawPathLineToRelative else DrawPathLineToAbsolute
  | PathHorizontalLine _ relative =>
      if truthy relative then DrawPathLineToHorizontalRelative
      else DrawPathLineToHorizontalAbsolute
  | PathVerticalLine _ relative =>
      if truthy relative then DrawPathLineToVerticalRelative
      else DrawPathLineToVerticalAbsolute
  | PathCurve _ _ smooth relative =>
      if truthy smooth then
        if truthy relative then DrawPathCurveToSmoothRelative
        else DrawPathCurveToSmoothAbsolute
      else
        if truthy relative then DrawPathCurveToRelative
        else DrawPathCurveToAbsolute
  | PathCurveToQuadraticBezier _ _ smooth relative =>
      if truthy smooth then
        if truthy relative then DrawPathCurveToQuadraticBezierSmoothRelative
        else DrawPathCurveToQuadraticBezierSmoothAbsolute
      else
        if truthy relative then DrawPathCurveToQuadraticBezierRelative
        else DrawPathCurveToQuadraticBezierAbsolute
  | PathEllipticArc _ _ _ _ _ relative =>
      if truthy relative then DrawPathEllipticArcRelative
      else DrawPathEllipticArcAbsolute
  end.

(** [d.op1(...).op2(...)...]: each operator is invoked on what the one
    before returned. *)
Inductive chained (parse : string -> option float)
  : list path_call -> oid -> world -> pyval -> world -> Prop :=
| chained_nil self w : chained parse [] self w (PyDrawing self) w
| chained_cons c cs self d w w1 v w' :
    run_path parse c self w = (Ok (PyDrawing d), w1) ->
    chained parse cs d w1 v w' ->
    chained parse (c :: cs) self w v w'.

(** A path operator invoked without an argument it tests for [None]
    first: the end point, the coordinate of a horizontal or vertical
    line, the controls of a cubic curve, the radius of an arc. *)
Definition missing_argument (c : path_call) : bool :=
  match c with
  | PathStart | PathFinish | PathClose => false
  | PathMove to _ | PathLine to _ => is_None to
  | PathHorizontalLine x _ | PathVerticalLine x _ => is_None x
  | PathCurve to controls _ _ => is_None to || is_None controls
  | PathCurveToQuadraticBezier to _ _ _ => is_None to
  | PathEllipticArc to radius _ _ _ _ => is_None to || is_None radius
  end.

(** Two live Drawings, objects 1 and 2, each on a wand of its own; the
    second wand holds a stale error. *)
Definition gallery : world :=
  World {[ 1%positive := Some 1%positive; 2%positive := Some 2%positive ]}
        {[ 1%positive := sample_wand; 2%positive := stale_wand ]}
        ∅ ∅ sample_library [].

(** [studio] with the attribute [a] of its wand holding [c]: what the
    library answers when asked for [a]. *)
Definition studio_with (a : attr) (c : cval) : world :=
  World {[ 1%positive := Some 1%positive ]}
        {[ 1%positive := set_attr a c sample_wand ]}
        ∅ ∅ sample_library [].

(** A Drawing whose wand has been destroyed. *)
Definition closed_studio : world :=
  World {[ 1%positive := None ]} ∅ ∅ ∅ sample_library [].

(** * Properties *)

(** ** The monad and the native heap *)

Lemma resource_live self h w :
  objects w !! self = Some (Some h) -> resource self w = (Ok h, w).
Proof. intros H. unfold resource. by rewrite H. Qed.

Lemma bind_Ok {A B} (c : M A) (k : A -> M B) w v w' :
  bind c k w = (Ok v, w') -> exists a w1, c w = (Ok a, w1) /\ k a w1 = (Ok v, w').
Proof.
  unfold bind. destruct (c w) as [[a | e] w1]; [eauto | discriminate].
Qed.

Lemma library_call_ok f a w : exists r w', library_call f a w = (Ok r, w').
Proof. unfold library_call. destruct (native f a _). eauto. Qed.

Lemma on_wand_trace h f w : trace (on_wand h f w) = trace w.
Proof. unfold on_wand. by destruct (wands w !! h). Qed.

Lemma on_wand_objects h f w : objects (on_wand h f w) = objects w.
Proof. unfold on_wand. by destruct (wands w !! h). Qed.

Lemma on_wand_lookup h f w dw :
  wands w !! h = Some dw -> wands (on_wand h f w) !! h = Some (f dw).
Proof. intros H. unfold on_wand. rewrite H. simpl. apply lookup_insert_eq. Qed.

Lemma wand_attr_set a v dw : wand_attr a (set_attr a v dw) = v.
Proof. unfold wand_attr, set_attr. simpl. by rewrite lookup_insert_eq. Qed.

Lemma native_DrawSet_int a h i w :
  native (DrawSet a) [CPtr h; CInt i] w = (CNull, on_wand h (set_attr a (CInt i)) w).
Proof. by destruct a. Qed.

Lemma native_DrawGet a h w :
  native (DrawGet a) [CPtr h] w =
    match wands w !! h with
    | Some dw => (wand_attr a dw, w)
    | None => (CNull, w)
    end.
Proof. by destruct a. Qed.

(** With nothing in the last-error channel, [raise_exception] asks the
    library once and returns. *)
Lemma raise_exception_quiet self h dw w :
  objects w !! self = Some (Some h) -> wands w !! h = Some dw ->
  exception dw = None ->
  raise_exception self w =
    (Ok tt, with_trace (trace w ++ [Call DrawGetException [CPtr h]]) w).
Proof.
  intros Hl Hw He. unfold raise_exception, bind.
  rewrite (resource_live _ _ _ Hl). unfold library_call. simpl.
  rewrite Hw, He. reflexivity.
Qed.

(** With an error in the channel, it raises that error. *)
Lemma raise_exception_pending self h dw m w :
  objects w !! self = Some (Some h) -> wands w !! h = Some dw ->
  exception dw = Some m ->
  exists w', raise_exception self w = (Raise (WandException m), w').
Proof.
  intros Hl Hw He. unfold raise_exception, bind.
  rewrite (resource_live _ _ _ Hl). unfold library_call. simpl.
  rewrite Hw, He. simpl. eauto.
Qed.


(** ** Tuples of strings *)

Lemma py_eq_strings s x :
  is_string x = true -> py_eq x (PyStr s) = true <-> x = PyStr s.
Proof.
  destruct x; simpl; try discriminate. intros _.
  rewrite String.eqb_eq. split; congruence.
Qed.

Lemma py_eq_strings_sym s x :
  is_string x = true -> py_eq (PyStr s) x = true <-> x = PyStr s.
Proof.
  destruct x; simpl; try discriminate. intros _.
  rewrite String.eqb_eq. split; congruence.
Qed.

Lemma py_in_strings s t :
  strings_only t -> py_in (PyStr s) t = true <-> In (PyStr s) t.
Proof.
  unfold py_in. intros Ht. rewrite existsb_exists. split.
  - intros (x & Hx & E). unfold strings_only in Ht. rewrite Forall_forall in Ht.
    apply py_eq_strings_sym in E; [by subst | apply Ht, list_elem_of_In, Hx].
  - intros Hin. exists (PyStr s). split; [done |]. simpl. apply String.eqb_refl.
Qed.

(** An int is equal to no string: [index in TYPES] is false whatever
    the index. *)
Lemma py_in_int_strings z t : strings_only t -> py_in (PyInt z) t = false.
Proof.
  unfold py_in. induction 1 as [| x t Hx Ht IH]; [done |].
  cbn [existsb]. rewrite IH. by destruct x.
Qed.

Lemma py_index_strings s t :
  strings_only t -> In (PyStr s) t ->
  exists i, py_index t (PyStr s) = Some (Z.of_nat i) /\ t !! i = Some (PyStr s).
Proof.
  induction 1 as [| x t Hx Ht IH]; simpl; [done |].
  intros Hin. destruct (py_eq x (PyStr s)) eqn:E.
  - exists 0%nat. split; [done |]. apply py_eq_strings in E; [by subst | done].
  - destruct Hin as [-> | Hin].
    + simpl in E. by rewrite String.eqb_refl in E.
    + destruct (IH Hin) as (i & Hi & Hn). exists (S i). rewrite Hi. simpl.
      split; [f_equal; lia | done].
Qed.

Lemma seq_getitem_lookup t i x :
  t !! i = Some x -> seq_getitem t (Z.of_nat i) = inr x.
Proof.
  intros H. unfold seq_getitem.
  assert (i < length t)%nat by (by apply lookup_lt_Some in H).
  destruct (Z.ltb_spec (Z.of_nat i) 0); [lia |].
  destruct (Z.leb_spec 0 (Z.of_nat i)); [| lia].
  destruct (Z.ltb_spec (Z.of_nat i) (Z.of_nat (length t))); [| lia].
  simpl. by rewrite Nat2Z.id, H.
Qed.

Lemma tokens_strings p : strings_only (tokens p).
Proof. destruct p; repeat constructor. Qed.

(** ** Enumerated-option setters *)

Lemma setter_is_shape p : setter p = setter_shape (tokens p) (native_attr p).
Proof. by destruct p. Qed.

Lemma setter_shape_rejects t a self s w :
  strings_only t -> ~ In (PyStr s) t ->
  setter_shape t a self (PyStr s) w = (Raise ValueError, w).
Proof.
  intros Ht Hn. unfold setter_shape. simpl.
  destruct (py_in (PyStr s) t) eqn:E; [| done].
  by apply py_in_strings in E.
Qed.

Lemma setter_shape_accepts t a self s h w :
  strings_only t -> In (PyStr s) t -> objects w !! self = Some (Some h) ->
  exists i, t !! i = Some (PyStr s) /\ py_index t (PyStr s) = Some (Z.of_nat i) /\
    setter_shape t a self (PyStr s) w =
      (Ok PyNone,
       on_wand h (set_attr a (CInt (Z.of_nat i)))
         (with_trace (trace w ++ [Call (DrawSet a) [CPtr h; CInt (Z.of_nat i)]]) w)).
Proof.
  intros Ht Hin Hlive.
  destruct (py_index_strings s t Ht Hin) as (i & Hi & Hn).
  exists i. split; [done |]. split; [done |].
  unfold setter_shape. simpl.
  apply (py_in_strings s t Ht) in Hin. rewrite Hin. simpl.
  unfold bind. rewrite (resource_live _ _ _ Hlive).
  unfold tuple_index. rewrite Hi. simpl.
  unfold library_call. rewrite native_DrawSet_int. reflexivity.
Qed.

(** C4. Every enumerated-option setter, given a string that is not in the
    property's token list, raises ValueError and leaves the world (native
    state and call trace) as it was; given a token of the list, on a live
    Drawing, it returns after exactly one native call, the property's
    setter entry point applied to the wand and the token's position in the
    list. *)
Theorem enum_setter_validation (p : enum_property) (self : oid) (s : string)
    (w : world) :
  (~ In (PyStr s) (tokens p) -> setter p self (PyStr s) w = (Raise ValueError, w))
  /\ (In (PyStr s) (tokens p) ->
      forall h, objects w !! self = Some (Some h) ->
      exists i w',
        tokens p !! i = Some (PyStr s)
        /\ setter p self (PyStr s) w = (Ok PyNone, w')
        /\ calls_added w w'
             [Call (DrawSet (native_attr p)) [CPtr h; CInt (Z.of_nat i)]]).
Proof.
  rewrite setter_is_shape. split.
  - apply setter_shape_rejects, tokens_strings.
  - intros Hin h Hlive.
    destruct (setter_shape_accepts _ (native_attr p) _ _ _ _ (tokens_strings p) Hin Hlive)
      as (i & Hn & _ & E).
    eexists i, _. split; [done |]. split; [exact E |].
    unfold calls_added. by rewrite on_wand_trace.
Qed.

Lemma enum_setter_validation_witness :
  setter P_gravity 1%positive (PyStr "sideways") studio = (Raise ValueError, studio)
  /\ exists i w',
       tokens P_gravity !! i = Some (PyStr "center")
       /\ setter P_gravity 1%positive (PyStr "center") studio = (Ok PyNone, w')
       /\ calls_added studio w'
            [Call DrawSetGravity [CPtr 1%positive; CInt (Z.of_nat i)]].
Proof.
  split.
  - apply (proj1 (enum_setter_validation P_gravity 1%positive "sideways" studio)).
    simpl. intuition discriminate.
  - apply (proj2 (enum_setter_validation P_gravity 1%positive "center" studio)).
    + simpl. tauto.
    + reflexivity.
Defined.

(** ** Enumerated-option getters and the round trip *)

Lemma getter_is_shape p self w :
  getter p self w =
    getter_shape (test_fails (getter_test p) (tokens p)) (tokens p) (native_attr p) self w.
Proof.
  destruct p; try reflexivity; simpl;
    unfold Drawing.clip_rule, Drawing.clip_units, getter_shape, bind, text; simpl;
    destruct (resource self w) as [[h|e] w1]; try reflexivity;
    destruct (fmap_M to_py _ w1) as [[v|e] w2]; try reflexivity; simpl;
    unfold ret; destruct (lift _ w2) as [[v'|e] w3]; reflexivity.
Qed.

(** A getter returns the token at the index the wand holds, when the
    failure test does not fire or finds the error channel empty. *)
Lemma getter_shape_reads failed t a self h dw i s w :
  objects w !! self = Some (Some h) -> wands w !! h = Some dw ->
  wand_attr a dw = CInt (Z.of_nat i) ->
  t !! i = Some (PyStr s) ->
  exception dw = None \/ failed (PyInt (Z.of_nat i)) = false ->
  exists w', getter_shape failed t a self w = (Ok (PyStr s), w').
Proof.
  intros Hl Hw Ha Hn Hq. unfold getter_shape, bind.
  rewrite (resource_live _ _ _ Hl). unfold fmap_M, bind, library_call.
  rewrite native_DrawGet. simpl. rewrite Hw, Ha. simpl.
  destruct (failed (PyInt (Z.of_nat i))) eqn:Ef.
  - destruct Hq as [He | ?]; [| done].
    erewrite raise_exception_quiet; [| exact Hl | exact Hw | exact He].
    rewrite (seq_getitem_lookup _ _ _ Hn). simpl. eauto.
  - simpl. rewrite (seq_getitem_lookup _ _ _ Hn). simpl. eauto.
Qed.

(** When the test fires with an error in the channel, the getter raises
    that error, whatever index the wand holds. *)
Lemma getter_shape_raises failed t a self h dw z m w :
  objects w !! self = Some (Some h) -> wands w !! h = Some dw ->
  wand_attr a dw = CInt z ->
  exception dw = Some m -> failed (PyInt z) = true ->
  exists w', getter_shape failed t a self w = (Raise (WandException m), w').
Proof.
  intros Hl Hw Ha He Hf. unfold getter_shape, bind.
  rewrite (resource_live _ _ _ Hl). unfold fmap_M, bind, library_call.
  rewrite native_DrawGet. simpl. rewrite Hw, Ha. simpl. rewrite Hf.
  match goal with |- context [raise_exception self ?w1] =>
    destruct (raise_exception_pending self h dw m w1 Hl Hw He) as [w' ->] end.
  eauto.
Qed.

(** Where the round trip holds: with nothing in the wand's last-error
    channel; for clip_rule and clip_units, whose getters test nothing; and,
    where the getter tests the index for zero, for every token but the
    first of the list. *)
Lemma enum_round_trip (p : enum_property) (s : string) (self : oid) (h : handle)
    (dw : DrawingWand) (w : world) :
  In (PyStr s) (tokens p) ->
  objects w !! self = Some (Some h) ->
  wands w !! h = Some dw ->
  exception dw = None
    \/ getter_test p = Unchecked
    \/ (getter_test p = ZeroIndex /\ head (tokens p) <> Some (PyStr s)) ->
  exists w', set_then_get p self (PyStr s) w = (Ok (PyStr s), w').
Proof.
  intros Hin Hl Hw Hq. unfold set_then_get, bind.
  rewrite setter_is_shape.
  destruct (setter_shape_accepts _ (native_attr p) _ _ _ _ (tokens_strings p) Hin Hl)
    as (i & Hn & _ & ->).
  rewrite getter_is_shape.
  eapply getter_shape_reads with (i := i) (dw := set_attr _ _ dw).
  - by rewrite on_wand_objects.
  - by apply on_wand_lookup.
  - apply wand_attr_set.
  - exact Hn.
  - destruct Hq as [He | [Hu | [Hz Hh]]].
    + by left.
    + right. by rewrite Hu.
    + right. rewrite Hz. simpl.
      destruct i as [| i]; [| done].
      exfalso. apply Hh. by destruct (tokens p).
Qed.

(** The stale error surfaces exactly where the getter's test fires: always
    under the [not in] test, and at the first token under the zero test. *)
Lemma enum_round_trip_stale (p : enum_property) (s : string) (self : oid)
    (h : handle) (dw : DrawingWand) (m : string) (w : world) :
  In (PyStr s) (tokens p) ->
  objects w !! self = Some (Some h) ->
  wands w !! h = Some dw ->
  exception dw = Some m ->
  getter_test p = NotInTokens
    \/ (getter_test p = ZeroIndex /\ head (tokens p) = Some (PyStr s)) ->
  exists w', set_then_get p self (PyStr s) w = (Raise (WandException m), w').
Proof.
  intros Hin Hl Hw He Hq. unfold set_then_get, bind.
  rewrite setter_is_shape.
  destruct (setter_shape_accepts _ (native_attr p) _ _ _ _ (tokens_strings p) Hin Hl)
    as (i & Hn & Hi & ->).
  rewrite getter_is_shape.
  eapply getter_shape_raises with (dw := set_attr _ _ dw).
  - by rewrite on_wand_objects.
  - by apply on_wand_lookup.
  - apply wand_attr_set.
  - exact He.
  - destruct Hq as [-> | [-> Hh]]; simpl.
    + by rewrite py_in_int_strings by apply tokens_strings.
    + destruct (tokens p) as [| x t]; [done |]. injection Hh as ->.
      simpl in Hi. rewrite String.eqb_refl in Hi.
      by replace i with 0%nat by (injection Hi; lia).
Qed.

(** C1. The round trip of the enumerated-option properties, and where the
    code breaks it. On a live Drawing, setting a property to a token of its
    list and reading it back returns that token when the wand's last-error
    channel is empty. When the channel holds an error [m], left there by
    an earlier native call, clip_rule and clip_units still return the
    token, but fill_rule, stroke_line_cap and stroke_line_join raise [m]
    for every token (their [not in] test is true of every index), and
    text_alignment, text_decoration, text_direction and gravity raise [m]
    for the first token of their list (its index, 0, is taken for a
    failure) and return every other token. *)
Theorem enum_round_trip_outcome (p : enum_property) (s : string) (self : oid)
    (h : handle) (dw : DrawingWand) (w : world) :
  In (PyStr s) (tokens p) ->
  objects w !! self = Some (Some h) ->
  wands w !! h = Some dw ->
  (exception dw = None ->
     exists w', set_then_get p self (PyStr s) w = (Ok (PyStr s), w'))
  /\ (forall m, exception dw = Some m ->
        (getter_test p = Unchecked ->
           exists w', set_then_get p self (PyStr s) w = (Ok (PyStr s), w'))
        /\ (getter_test p = NotInTokens ->
           exists w', set_then_get p self (PyStr s) w = (Raise (WandException m), w'))
        /\ (getter_test p = ZeroIndex -> head (tokens p) = Some (PyStr s) ->
           exists w', set_then_get p self (PyStr s) w = (Raise (WandException m), w'))
        /\ (getter_test p = ZeroIndex -> head (tokens p) <> Some (PyStr s) ->
           exists w', set_then_get p self (PyStr s) w = (Ok (PyStr s), w'))).
Proof.
  intros Hin Hl Hw. split; [| intros m He; split; [| split; [| split]]].
  - intros He. apply (enum_round_trip p s self h dw w Hin Hl Hw). by left.
  - intros Ht. apply (enum_round_trip p s self h dw w Hin Hl Hw). right. by left.
  - intros Ht. apply (enum_round_trip_stale p s self h dw m w Hin Hl Hw He). by left.
  - intros Ht Hh. apply (enum_round_trip_stale p s self h dw m w Hin Hl Hw He).
    by right.
  - intros Ht Hh. apply (enum_round_trip p s self h dw w Hin Hl Hw). right. by right.
Qed.

Lemma enum_round_trip_outcome_witness :
  (exists w', set_then_get P_gravity 1%positive (PyStr "forget") studio
                = (Ok (PyStr "forget"), w'))
  /\ (exists w', set_then_get P_clip_rule 1%positive (PyStr "undefined") stale_studio
                = (Ok (PyStr "undefined"), w'))
  /\ (exists w', set_then_get P_fill_rule 1%positive (PyStr "evenodd") stale_studio
                = (Raise (WandException "MemoryAllocationFailed"), w'))
  /\ (exists w', set_then_get P_gravity 1%positive (PyStr "forget") stale_studio
                = (Raise (WandException "MemoryAllocationFailed"), w'))
  /\ (exists w', set_then_get P_gravity 1%positive (PyStr "north") stale_studio
                = (Ok (PyStr "north"), w')).
Proof.
  split; [| split; [| split; [| split]]].
  - apply (proj1 (enum_round_trip_outcome P_gravity "forget" 1%positive 1%positive
                    sample_wand studio ltac:(simpl; tauto) eq_refl eq_refl)).
    reflexivity.
  - apply (proj1 (proj2 (enum_round_trip_outcome P_clip_rule "undefined" 1%positive
                           1%positive stale_wand stale_studio
                           ltac:(simpl; tauto) eq_refl eq_refl)
                    "MemoryAllocationFailed" eq_refl)).
    reflexivity.
  - apply (proj1 (proj2 (proj2 (enum_round_trip_outcome P_fill_rule "evenodd" 1%positive
                           1%positive stale_wand stale_studio
                           ltac:(simpl; tauto) eq_refl eq_refl)
                    "MemoryAllocationFailed" eq_refl))).
    reflexivity.
  - apply (proj1 (proj2 (proj2 (proj2 (enum_round_trip_outcome P_gravity "forget"
                           1%positive 1%positive stale_wand stale_studio
                           ltac:(simpl; tauto) eq_refl eq_refl)
                    "MemoryAllocationFailed" eq_refl)))); reflexivity.
  - apply (proj2 (proj2 (proj2 (proj2 (enum_round_trip_outcome P_gravity "north"
                           1%positive 1%positive stale_wand stale_studio
                           ltac:(simpl; tauto) eq_refl eq_refl)
                    "MemoryAllocationFailed" eq_refl)))); [reflexivity | discriminate].
Defined.

(** C9. In the getters of fill_rule, stroke_line_cap and stroke_line_join
    the test [index not in TYPES] is true of every integer index the native
    query returns, so on every get of a live Drawing the call to
    [raise_exception] follows the native query: the trace grows by the
    query, then by the read of the library's error channel. *)
Theorem not_in_test_always_fires (p : enum_property) (self : oid) (h : handle)
    (dw : DrawingWand) (z : Z) (w : world) :
  In p [P_fill_rule; P_stroke_line_cap; P_stroke_line_join] ->
  objects w !! self = Some (Some h) ->
  wands w !! h = Some dw ->
  wand_attr (native_attr p) dw = CInt z ->
  negb (py_in (PyInt z) (tokens p)) = true
  /\ exists r w' rest,
       getter p self w = (r, w')
       /\ calls_added w w'
            ([Call (DrawGet (native_attr p)) [CPtr h];
              Call DrawGetException [CPtr h]] ++ rest).
Proof.
  intros Hp Hl Hw Ha.
  assert (Hin : py_in (PyInt z) (tokens p) = false)
    by apply py_in_int_strings, tokens_strings.
  split; [by rewrite Hin |].
  assert (Ht : getter_test p = NotInTokens).
  { simpl in Hp. destruct Hp as [<- | [<- | [<- | []]]]; reflexivity. }
  rewrite getter_is_shape, Ht. unfold getter_shape, bind.
  rewrite (resource_live _ _ _ Hl). unfold fmap_M, bind, library_call.
  rewrite native_DrawGet. simpl. rewrite Hw, Ha. simpl. rewrite Hin. simpl.
  unfold raise_exception, bind. unfold resource at 1. simpl. rewrite Hl.
  unfold library_call. simpl. rewrite Hw.
  destruct (exception dw) as [m |]; simpl.
  - eexists _, _, [_]. split; [reflexivity |].
    unfold calls_added. rewrite on_wand_trace. simpl.
    by rewrite <- !app_assoc.
  - destruct (seq_getitem (tokens p) z) as [e | v]; simpl;
      (eexists _, _, []; split; [reflexivity |]);
      unfold calls_added; simpl; by rewrite <- !app_assoc.
Qed.

Lemma not_in_test_always_fires_witness :
  negb (py_in (PyInt 1) (tokens P_stroke_line_cap)) = true
  /\ exists r w' rest,
       getter P_stroke_line_cap 1%positive studio = (r, w')
       /\ calls_added studio w'
            ([Call DrawGetStrokeLineCap [CPtr 1%positive];
              Call DrawGetException [CPtr 1%positive]] ++ rest).
Proof.
  apply (not_in_test_always_fires P_stroke_line_cap 1%positive 1%positive
           sample_wand 1 studio).
  - simpl. tauto.
  - reflexivity.
  - reflexivity.
  - reflexivity.
Defined.

(** ** Real-valued setters *)

Lemma negative_real_is_Real v : negative_real v -> is_Real v = true.
Proof. by destruct v. Qed.

(** [v < 0.0] holds of every negative real. *)
Lemma negative_real_lt_zero v :
  negative_real v -> py_lt v (PyFloat 0) = inr true.
Proof.
  destruct v; simpl; try done; intros H; unfold py_lt; simpl.
  - by rewrite (proj2 (Z.compare_lt_iff z 0) H).
  - by rewrite H.
Qed.

(** C5. The stroke_width and font_size setters raise ValueError on every
    negative real (int or float) and TypeError on every value that is not a
    real, and in both cases leave the world as it was: nothing crossed into
    the native library. *)
Theorem negative_size_rejected (self : oid) (v : pyval) (w : world) :
  (negative_real v ->
     Drawing.stroke_width_setter self v w = (Raise ValueError, w)
     /\ Drawing.font_size_setter self v w = (Raise ValueError, w))
  /\ (is_Real v = false ->
     Drawing.stroke_width_setter self v w = (Raise TypeError, w)
     /\ Drawing.font_size_setter self v w = (Raise TypeError, w)).
Proof.
  split.
  - intros Hneg.
    unfold Drawing.stroke_width_setter, Drawing.font_size_setter, bind.
    rewrite (negative_real_is_Real _ Hneg), (negative_real_lt_zero _ Hneg).
    by split.
  - intros Hr. unfold Drawing.stroke_width_setter, Drawing.font_size_setter.
    rewrite Hr. by split.
Qed.

Lemma negative_size_rejected_witness :
  (Drawing.stroke_width_setter 1%positive (PyInt (-3)) studio = (Raise ValueError, studio)
   /\ Drawing.font_size_setter 1%positive (PyInt (-3)) studio = (Raise ValueError, studio))
  /\ (Drawing.stroke_width_setter 1%positive (PyFloat (-0.5)) studio
        = (Raise ValueError, studio)
      /\ Drawing.font_size_setter 1%positive (PyFloat (-0.5)) studio
        = (Raise ValueError, studio))
  /\ (Drawing.stroke_width_setter 1%positive (PyStr "wide") studio
        = (Raise TypeError, studio)
      /\ Drawing.font_size_setter 1%positive (PyStr "wide") studio
        = (Raise TypeError, studio)).
Proof.
  split; [| split].
  - apply (proj1 (negative_size_rejected 1%positive (PyInt (-3)) studio)). simpl. lia.
  - apply (proj1 (negative_size_rejected 1%positive (PyFloat (-0.5)) studio)).
    reflexivity.
  - apply (proj2 (negative_size_rejected 1%positive (PyStr "wide") studio)).
    reflexivity.
Defined.

(** ** The feature-availability guard *)

(** C8. When the library did not resolve DrawGetTextInterlineSpacing, the
    getter of text_interline_spacing raises WandLibraryVersionError, and
    when it did not resolve DrawSetTextInterlineSpacing, so does the setter
    for every argument; either way the world is as it was: no native call,
    and no silent return. *)
Theorem interline_spacing_guard (self : oid) (w : world) :
  (has_DrawGetTextInterlineSpacing (library w) = false ->
     Drawing.text_interline_spacing self w = (Raise WandLibraryVersionError, w))
  /\ (has_DrawSetTextInterlineSpacing (library w) = false ->
     forall spacing,
       Drawing.text_interline_spacing_setter self spacing w
         = (Raise WandLibraryVersionError, w)).
Proof.
  split.
  - intros H. unfold Drawing.text_interline_spacing, bind, get_library.
    by rewrite H.
  - intros H spacing. unfold Drawing.text_interline_spacing_setter, bind, get_library.
    by rewrite H.
Qed.

Lemma interline_spacing_guard_witness :
  Drawing.text_interline_spacing 1%positive old_studio
    = (Raise WandLibraryVersionError, old_studio)
  /\ Drawing.text_interline_spacing_setter 1%positive (PyFloat 2) old_studio
    = (Raise WandLibraryVersionError, old_studio).
Proof.
  split.
  - apply (proj1 (interline_spacing_guard 1%positive old_studio)). reflexivity.
  - apply (proj2 (interline_spacing_guard 1%positive old_studio)). reflexivity.
Defined.

(** ** rectangle *)

Lemma is_Real_not_None v : is_Real v = true -> is_None v = false.
Proof. by destruct v. Qed.

Lemma py_lt_Real a b :
  is_Real a = true -> is_Real b = true -> exists c, py_lt a b = inr c.
Proof.
  unfold is_Real, py_lt. destruct (as_real a), (as_real b); try done. eauto.
Qed.


(** The corner+dimensions form, once its sign checks pass. *)
Lemma rectangle_width_form self left top width height right bottom w :
  is_Real left = true -> is_Real top = true ->
  is_Real width = true -> is_Real height = true ->
  py_lt width (PyInt 0) = inr false -> py_lt height (PyInt 0) = inr false ->
  py_add left width = inr right -> py_add top height = inr bottom ->
  Drawing.rectangle self left top PyNone PyNone width height w
    = draw_rectangle self left top right bottom w.
Proof.
  intros Hl Ht Hw Hh Hw0 Hh0 Hr Hb. unfold Drawing.rectangle.
  rewrite (is_Real_not_None _ Hl), (is_Real_not_None _ Ht),
    (is_Real_not_None _ Hw), (is_Real_not_None _ Hh), Hl, Ht, Hw, Hh. simpl.
  unfold bind at 1. unfold bind at 1. rewrite Hw0. simpl. rewrite Hr. simpl.
  unfold bind at 1. unfold bind at 1. rewrite Hh0. simpl. rewrite Hb. simpl.
  reflexivity.
Qed.




(** With nothing in the error channel, the unconditional
    [raise_exception] that ends [rectangle] lets it return. *)
Lemma rectangle_returns_when_quiet self h dw w :
  objects w !! self = Some (Some h) -> wands w !! h = Some dw ->
  exception dw = None ->
  exists w',
    Drawing.rectangle self (PyInt 0) (PyInt 0) PyNone PyNone (PyInt 10) (PyInt 20) w
      = (Ok PyNone, w')
    /\ calls_added w w'
         [Call DrawRectangle [CPtr h; CDouble 0; CDouble 0; CDouble 10; CDouble 20];
          Call DrawGetException [CPtr h]].
Proof.
  intros Hl Hw He.
  rewrite (rectangle_width_form self _ _ _ _ (PyInt 10) (PyInt 20)) by reflexivity.
  unfold draw_rectangle, bind. rewrite (resource_live _ _ _ Hl). simpl.
  erewrite raise_exception_quiet with (dw := append_mvg _ dw).
  - eexists. split; [reflexivity |].
    unfold calls_added. simpl. rewrite on_wand_trace. simpl. by rewrite <- app_assoc.
  - by rewrite on_wand_objects.
  - by apply on_wand_lookup.
  - exact He.
Qed.







(** C6. A corner+corner call of rectangle (left, top, right and bottom
    real, no width or height) in which right < left or bottom < top raises
    ValueError and leaves the world as it was, so before DrawRectangle; in
    particular rectangle(left=5, top=5, right=2, bottom=10) does. *)
Theorem rectangle_corner_order (self : oid) (w : world) :
  (forall left top right bottom,
     is_Real left = true -> is_Real top = true ->
     is_Real right = true -> is_Real bottom = true ->
     py_lt right left = inr true \/ py_lt bottom top = inr true ->
     Drawing.rectangle self left top right bottom PyNone PyNone w
       = (Raise ValueError, w))
  /\ Drawing.rectangle self (PyInt 5) (PyInt 5) (PyInt 2) (PyInt 10) PyNone PyNone w
       = (Raise ValueError, w).
Proof.
  split; [| reflexivity].
  intros left top right bottom Hl Ht Hr Hb Hlt. unfold Drawing.rectangle.
  rewrite (is_Real_not_None _ Hl), (is_Real_not_None _ Ht),
    (is_Real_not_None _ Hr), (is_Real_not_None _ Hb), Hl, Ht, Hr, Hb. simpl.
  unfold bind at 1. unfold bind at 1.
  destruct (py_lt_Real right left Hr Hl) as [c Hc]. rewrite Hc. simpl.
  destruct c; [reflexivity |]. simpl.
  destruct Hlt as [Hlt | Hlt]; [congruence |].
  unfold bind at 1. unfold bind at 1. rewrite Hlt. reflexivity.
Qed.

Lemma rectangle_corner_order_witness :
  Drawing.rectangle 1%positive (PyInt 5) (PyInt 5) (PyInt 2) (PyInt 10)
    PyNone PyNone studio = (Raise ValueError, studio)
  /\ Drawing.rectangle 1%positive (PyFloat 1) (PyInt 7) (PyFloat 3) (PyFloat 6.5)
    PyNone PyNone studio = (Raise ValueError, studio).
Proof.
  split.
  - apply (proj2 (rectangle_corner_order 1%positive studio)).
  - apply (proj1 (rectangle_corner_order 1%positive studio)); try reflexivity.
    right. reflexivity.
Defined.

(** ** Coordinate marshalling *)

Lemma flatten_points_length pts :
  length (flatten_points pts) = (2 * length pts)%nat.
Proof. induction pts as [| [x y] pts IH]; simpl; [done | rewrite IH; lia]. Qed.

Lemma flatten_points_lookup pts (k : nat) x y :
  pts !! (k / 2)%nat = Some (x, y) ->
  flatten_points pts !! k = Some (if (k mod 2 =? 0)%nat then x else y).
Proof.
  revert k. induction pts as [| [x0 y0] pts IH]; intros k; [done |].
  destruct k as [| [| k]].
  - simpl. by intros [= -> ->].
  - simpl. by intros [= -> ->].
  - replace (S (S k)) with (k + 1 * 2)%nat by lia.
    rewrite Nat.div_add, Nat.Div0.mod_add by lia.
    replace (k / 2 + 1)%nat with (S (k / 2)) by lia. simpl.
    intros H. replace (k + 2)%nat with (S (S k)) by lia. simpl. by apply IH.
Qed.

(** Round [k] of the loop reads the [k]-th double of the flattened list. *)
Lemma coordinate_of_points pts xys (k : nat) :
  Forall2 is_point pts xys -> (k < 2 * length pts)%nat ->
  exists v, coordinate pts (Z.of_nat k) = inr v /\ flatten_points xys !! k = Some v.
Proof.
  intros HF Hk.
  assert (Hd : (k / 2 < length pts)%nat) by (apply Nat.Div0.div_lt_upper_bound; lia).
  destruct (lookup_lt_is_Some_2 pts _ Hd) as [p Hp].
  destruct (Forall2_lookup_l _ _ _ _ _ HF Hp) as ([x y] & Hxy & (a & b & Hshape & Ha & Hb)).
  simpl in Ha, Hb.
  exists (if (k mod 2 =? 0)%nat then x else y).
  split; [| by apply flatten_points_lookup].
  unfold coordinate.
  change 2 with (Z.of_nat 2). rewrite <- Nat2Z.inj_div, <- Nat2Z.inj_mod.
  rewrite (seq_getitem_lookup pts (k / 2) p) by done.
  assert (Hm : (k mod 2 < 2)%nat) by (apply Nat.mod_upper_bound; lia).
  destruct (k mod 2)%nat as [| [| r]]; [| | lia];
    destruct Hshape as [-> | ->]; simpl; assumption.
Qed.

Lemma float_pairs_are_points (xys : list (float * float)) :
  Forall2 is_point (map (fun xy => PyTuple [PyFloat (fst xy); PyFloat (snd xy)]) xys) xys.
Proof.
  induction xys as [| xy xys IH]; simpl; constructor; [| done].
  exists (PyFloat (fst xy)), (PyFloat (snd xy)). auto.
Qed.

Section marshalling.

Variables (pts : list pyval) (xys : list (float * float)) (w : world).
Hypothesis points_ok : Forall2 is_point pts xys.

(** The size of the array. *)
Variable n : nat.
Hypothesis n_doubles : n = (2 * length pts)%nat.

Lemma flat_length : length (flatten_points xys) = n.
Proof.
  rewrite flatten_points_length, n_doubles.
  by rewrite (Forall2_length _ _ _ points_ok).
Qed.

(** The loop invariant: after round [k] the array holds the first [k]
    doubles, and nothing else in the world has moved. *)
Lemma fill_loop (m k : nat) :
  (k + m = n)%nat ->
  for_each (map Z.of_nat (seq k m)) (fun double_index =>
      let tuple_index := double_index / 2 in
      let tuple_offset := double_index mod 2 in
      point <- lift (seq_getitem pts tuple_index) ;;
      coordinate <- lift (py_getitem point tuple_offset) ;;
      x <- lift (c_double coordinate) ;;
      c_array_setitem (fresh (dom (buffers w))) double_index x)
    (filled (flatten_points xys) w k)
  = (Ok tt, filled (flatten_points xys) w n).
Proof.
  revert k. induction m as [| m IH]; intros k Hk.
  - simpl. replace k with n by lia. reflexivity.
  - cbn [seq map for_each]. unfold bind at 1.
    destruct (coordinate_of_points pts xys k points_ok ltac:(lia)) as (v & Hc & Hv).
    unfold coordinate in Hc. cbv zeta. unfold bind at 1.
    destruct (seq_getitem pts (Z.of_nat k / 2)) as [e | point]; [done |].
    simpl. unfold bind at 1.
    destruct (py_getitem point (Z.of_nat k mod 2)) as [e | c]; [done |].
    simpl. unfold bind at 1. rewrite Hc. simpl.
    unfold c_array_setitem. simpl. rewrite lookup_insert_eq.
    rewrite length_app, length_take, length_replicate, flat_length.
    destruct (Z.leb_spec 0 (Z.of_nat k)); [| lia].
    destruct (Z.ltb_spec (Z.of_nat k) (Z.of_nat (k `min` n + (n - k)))); [| lia].
    simpl. rewrite Nat2Z.id, insert_insert_eq.
    rewrite <- (IH (S k)) by lia. f_equal. unfold filled, with_buffers. simpl.
    f_equal. f_equal.
    rewrite insert_app_r_alt by (rewrite length_take, flat_length; lia).
    rewrite length_take, flat_length.
    replace (k - k `min` n)%nat with 0%nat by lia.
    replace (n - k)%nat with (S (n - S k)) by lia. simpl.
    rewrite (take_S_r _ _ _ Hv). by rewrite <- app_assoc.
Qed.

Lemma list_to_point_info_fills :
  _list_to_point_info (PyList pts) w
  = (Ok (Z.of_nat (length pts), fresh (dom (buffers w))),
     with_buffers (<[fresh (dom (buffers w)) := flatten_points xys]> (buffers w)) w).
Proof.
  unfold _list_to_point_info. unfold bind at 1. unfold new_c_double_array.
  unfold xrange.
  replace (Z.to_nat (Z.of_nat (length pts) * 2)) with n by lia.
  unfold bind at 1.
  pose proof (fill_loop n 0 ltac:(lia)) as H.
  unfold filled in H at 1. rewrite take_0, Nat.sub_0_r, flat_length in H. simpl in H.
  rewrite H. simpl. unfold ret, filled. do 3 f_equal.
  rewrite flat_length, Nat.sub_diag. simpl. rewrite app_nil_r.
  apply take_ge. by rewrite flat_length.
Qed.

Lemma draw_points_passes s self h :
  objects w !! self = Some (Some h) ->
  exists w',
    draw_points s self (PyList pts) w = (Ok PyNone, w')
    /\ calls_added w w'
         [Call (point_entry s)
            [CPtr h; CInt (Z.of_nat (length pts)); CPtr (fresh (dom (buffers w)))]]
    /\ buffers w' !! fresh (dom (buffers w)) = Some (flatten_points xys).
Proof.
  intros Hl.
  destruct s; simpl; unfold Drawing.polygon, Drawing.polyline, Drawing.bezier;
    unfold bind at 1; rewrite list_to_point_info_fills;
    unfold bind, resource; simpl; rewrite Hl; simpl;
    unfold library_call; simpl; unfold on_wand; simpl;
    destruct (wands w !! h); simpl;
    (eexists; split; [reflexivity |]); simpl;
    (split; [reflexivity | apply lookup_insert_eq]).
Qed.

End marshalling.

Lemma not_a_list_rejected v w :
  is_list v = false -> _list_to_point_info v w = (Raise TypeError, w).
Proof. by destruct v. Qed.

(** C3. For every list of N two-element numeric pairs (tuples or lists
    whose coordinates convert to doubles x_i, y_i), the marshalling routine
    returns the point count N with a pointer to a freshly allocated array
    that holds exactly x0, y0, x1, y1, ... (2N doubles) and changes nothing
    else in the world; polygon, polyline and bezier then make one native
    call with the wand, N and that pointer.  Flattening [(1,2),(3,4)]
    yields [1.0, 2.0, 3.0, 4.0] with reported length 2.  An input that is
    not a list raises TypeError with the world as it was: nothing was
    allocated and nothing called. *)
Theorem coordinate_marshalling (w : world) :
  (forall pts xys,
     Forall2 is_point pts xys ->
     _list_to_point_info (PyList pts) w
       = (Ok (Z.of_nat (length pts), fresh (dom (buffers w))),
          with_buffers (<[fresh (dom (buffers w)) := flatten_points xys]> (buffers w)) w)
     /\ length (flatten_points xys) = (2 * length pts)%nat
     /\ forall s self h,
          objects w !! self = Some (Some h) ->
          exists w',
            draw_points s self (PyList pts) w = (Ok PyNone, w')
            /\ calls_added w w'
                 [Call (point_entry s)
                    [CPtr h; CInt (Z.of_nat (length pts));
                     CPtr (fresh (dom (buffers w)))]]
            /\ buffers w' !! fresh (dom (buffers w)) = Some (flatten_points xys))
  /\ _list_to_point_info
       (PyList [PyTuple [PyInt 1; PyInt 2]; PyTuple [PyInt 3; PyInt 4]]) w
     = (Ok (2, fresh (dom (buffers w))),
        with_buffers
          (<[fresh (dom (buffers w)) := [1; 2; 3; 4]%float]> (buffers w)) w)
  /\ (forall v,
        is_list v = false ->
        _list_to_point_info v w = (Raise TypeError, w)
        /\ forall s self, draw_points s self v w = (Raise TypeError, w)).
Proof.
  split; [| split].
  - intros pts xys Hp.
    split; [by apply (list_to_point_info_fills pts xys w Hp (2 * length pts)) |].
    split; [by apply (flat_length pts xys Hp) |].
    intros s self h Hl. by apply (draw_points_passes pts xys w Hp (2 * length pts)).
  - apply (list_to_point_info_fills
             [PyTuple [PyInt 1; PyInt 2]; PyTuple [PyInt 3; PyInt 4]]
             [(1, 2); (3, 4)]%float w) with (n := 4%nat); [| reflexivity].
    repeat constructor; eexists _, _; (split; [by left |]); split; reflexivity.
  - intros v Hv. split; [by apply not_a_list_rejected |].
    intros s self. destruct s; simpl;
      unfold Drawing.polygon, Drawing.polyline, Drawing.bezier, bind;
      by rewrite not_a_list_rejected.
Qed.

Lemma coordinate_marshalling_witness :
  (fst (_list_to_point_info
          (PyList [PyTuple [PyFloat 0.5; PyInt 2]; PyList [PyInt 3; PyBool true]]) studio)
     = Ok (2, 1%positive)
   /\ buffers (snd (_list_to_point_info
          (PyList [PyTuple [PyFloat 0.5; PyInt 2]; PyList [PyInt 3; PyBool true]]) studio))
        !! 1%positive = Some [0.5; 2; 3; 1]%float)
  /\ _list_to_point_info (PyTuple [PyTuple [PyInt 1; PyInt 2]]) studio
     = (Raise TypeError, studio).
Proof.
  destruct (coordinate_marshalling studio) as (Hlist & _ & Hother).
  split.
  - destruct (Hlist [PyTuple [PyFloat 0.5; PyInt 2]; PyList [PyInt 3; PyBool true]]
                [(0.5, 2); (3, 1)]%float) as (-> & _).
    + repeat constructor; eexists _, _;
        (split; [(by left) || (by right) |]); split; reflexivity.
    + split; reflexivity.
  - apply Hother. reflexivity.
Defined.

(** ** Cloning *)

Lemma stroke_color_reads self h dw w :
  objects w !! self = Some (Some h) -> wands w !! h = Some dw ->
  fst (Drawing.stroke_color self w) = Ok (PyColor (wand_stroke_color dw)).
Proof.
  intros Hl Hw. unfold Drawing.stroke_color, bind, library_call, resource. simpl.
  rewrite Hl. simpl. rewrite Hw. unfold wand_stroke_color.
  destruct (wand_attr StrokeColor dw); simpl; rewrite ?lookup_insert_eq; reflexivity.
Qed.

Lemma stroke_color_setter_writes self h dw raw w :
  objects w !! self = Some (Some h) -> wands w !! h = Some dw ->
  exists w', Drawing.stroke_color_setter self (PyColor raw) w = (Ok PyNone, w')
    /\ objects w' = objects w
    /\ wands w' = <[h := set_attr StrokeColor (CPacket raw) dw]> (wands w).
Proof.
  intros Hl Hw.
  unfold Drawing.stroke_color_setter, with_color, finally, bind, library_call, resource.
  simpl. rewrite Hl. simpl. unfold on_wand. simpl. rewrite Hw. simpl.
  rewrite lookup_insert_eq. simpl. eauto.
Qed.

(** Two live Drawings on different wands: setting the stroke colour of
    one changes what it reads back and not what the other reads. *)
Lemma stroke_color_frame a b ha hb dwa dwb raw w :
  objects w !! a = Some (Some ha) -> objects w !! b = Some (Some hb) ->
  wands w !! ha = Some dwa -> wands w !! hb = Some dwb ->
  ha <> hb ->
  exists w',
    Drawing.stroke_color_setter a (PyColor raw) w = (Ok PyNone, w')
    /\ fst (Drawing.stroke_color b w') = fst (Drawing.stroke_color b w)
    /\ fst (Drawing.stroke_color a w') = Ok (PyColor raw).
Proof.
  intros Hla Hlb Hwa Hwb Hne.
  destruct (stroke_color_setter_writes a ha dwa raw w Hla Hwa) as (w' & Hset & Ho & Hw').
  exists w'. split; [done |]. split.
  - rewrite (stroke_color_reads b hb dwb w Hlb Hwb).
    apply stroke_color_reads with (h := hb); [by rewrite Ho |].
    by rewrite Hw', lookup_insert_ne.
  - rewrite (stroke_color_reads a ha (set_attr StrokeColor (CPacket raw) dwa) w').
    + unfold wand_stroke_color. by rewrite wand_attr_set.
    + by rewrite Ho.
    + rewrite Hw'. apply lookup_insert_eq.
Qed.

(** The clone is a new object on a new wand that duplicates the source's. *)
Lemma clone_duplicates d h dw w :
  objects w !! d = Some (Some h) -> wands w !! h = Some dw ->
  exists w1,
    Drawing.clone d w = (Ok (PyDrawing (fresh (dom (objects w)))), w1)
    /\ objects w1 = <[fresh (dom (objects w)) := Some (fresh (dom (wands w)))]> (objects w)
    /\ wands w1 = <[fresh (dom (wands w)) := dw]> (wands w)
    /\ fresh (dom (objects w)) <> d /\ fresh (dom (wands w)) <> h.
Proof.
  intros Hl Hw.
  assert (Hc : fresh (dom (objects w)) <> d).
  { intros E. apply (is_fresh (dom (objects w))). rewrite E. apply elem_of_dom. eauto. }
  assert (Hh : fresh (dom (wands w)) <> h).
  { intros E. apply (is_fresh (dom (wands w))). rewrite E. apply elem_of_dom. eauto. }
  unfold Drawing.clone, Drawing.__init__. simpl.
  unfold bind at 1. unfold bind at 1. unfold resource. simpl.
  rewrite lookup_insert_ne by done. rewrite Hl.
  unfold library_call at 1. simpl. rewrite Hw.
  unfold set_resource, bind, library_call. simpl.
  rewrite lookup_insert_eq. rewrite bool_decide_eq_true_2 by eauto. simpl.
  eexists. split; [reflexivity |]. simpl.
  rewrite insert_insert_eq. done.
Qed.

(** C7. Cloning a live Drawing d, by clone() or by Drawing(drawing=d),
    yields a different object c on a different native handle, with d still
    on its own; setting the clone's stroke_color then leaves what the
    original's stroke_color reads unchanged while the clone reads the new
    colour, and the same with the roles exchanged. *)
Theorem clone_independence (d : oid) (h : handle) (dw : DrawingWand)
    (raw : MagickPixelPacket) (w : world) :
  objects w !! d = Some (Some h) -> wands w !! h = Some dw ->
  exists c h' w1,
    Drawing.clone d w = (Ok (PyDrawing c), w1)
    /\ Drawing.__init__ (PyDrawing d) w = (Ok (PyDrawing c), w1)
    /\ c <> d /\ h' <> h
    /\ objects w1 !! c = Some (Some h') /\ objects w1 !! d = Some (Some h)
    /\ (exists w2,
          Drawing.stroke_color_setter c (PyColor raw) w1 = (Ok PyNone, w2)
          /\ fst (Drawing.stroke_color d w2) = fst (Drawing.stroke_color d w1)
          /\ fst (Drawing.stroke_color c w2) = Ok (PyColor raw))
    /\ (exists w2,
          Drawing.stroke_color_setter d (PyColor raw) w1 = (Ok PyNone, w2)
          /\ fst (Drawing.stroke_color c w2) = fst (Drawing.stroke_color c w1)
          /\ fst (Drawing.stroke_color d w2) = Ok (PyColor raw)).
Proof.
  intros Hl Hw.
  destruct (clone_duplicates d h dw w Hl Hw) as (w1 & Hclone & Ho & Hws & Hc & Hh).
  set (c := fresh (dom (objects w))) in *. set (h' := fresh (dom (wands w))) in *.
  assert (Hlc : objects w1 !! c = Some (Some h')) by (rewrite Ho; apply lookup_insert_eq).
  assert (Hld : objects w1 !! d = Some (Some h)) by (by rewrite Ho, lookup_insert_ne).
  assert (Hwc : wands w1 !! h' = Some dw) by (rewrite Hws; apply lookup_insert_eq).
  assert (Hwd : wands w1 !! h = Some dw) by (by rewrite Hws, lookup_insert_ne).
  exists c, h', w1. repeat (split; [done |]). split.
  - by apply (stroke_color_frame c d h' h dw dw).
  - by apply (stroke_color_frame d c h h' dw dw).
Qed.

Lemma clone_independence_witness :
  exists c h' w1,
    Drawing.clone 1%positive studio = (Ok (PyDrawing c), w1)
    /\ Drawing.__init__ (PyDrawing 1%positive) studio = (Ok (PyDrawing c), w1)
    /\ c <> 1%positive /\ h' <> 1%positive
    /\ objects w1 !! c = Some (Some h')
    /\ objects w1 !! 1%positive = Some (Some 1%positive)
    /\ (exists w2,
          Drawing.stroke_color_setter c (PyColor [255; 0; 0]) w1 = (Ok PyNone, w2)
          /\ fst (Drawing.stroke_color 1%positive w2)
             = fst (Drawing.stroke_color 1%positive w1)
          /\ fst (Drawing.stroke_color c w2) = Ok (PyColor [255; 0; 0]))
    /\ (exists w2,
          Drawing.stroke_color_setter 1%positive (PyColor [255; 0; 0]) w1
            = (Ok PyNone, w2)
          /\ fst (Drawing.stroke_color c w2) = fst (Drawing.stroke_color c w1)
          /\ fst (Drawing.stroke_color 1%positive w2) = Ok (PyColor [255; 0; 0])).
Proof.
  apply (clone_independence 1%positive 1%positive sample_wand [255; 0; 0] studio).
  - reflexivity.
  - reflexivity.
Defined.

(** ** Path-construction operators *)

Ltac invert_run :=
  repeat match goal with
    | H : bind _ _ _ = (Ok _, _) |- _ =>
        apply bind_Ok in H; destruct H as (? & ? & _ & H)
    | H : (if ?b then _ else _) _ = (Ok _, _) |- _ => destruct b
    | H : raise _ _ = (Ok _, _) |- _ => discriminate H
    | H : ret _ _ = (Ok _, _) |- _ => injection H as <- _; reflexivity
    end.

Ltac run_call :=
  match goal with
  | |- context [library_call ?f ?a ?w] =>
      let r := fresh "r" in let w1 := fresh "w" in let E := fresh "E" in
      destruct (library_call_ok f a w) as (r & w1 & E); rewrite E
  end.

Lemma float_pair_real_pair v : float_pair v -> real_pair v.
Proof.
  intros (x & y & ->). exists (PyFloat x), (PyFloat y).
  split; [by left |]. split; eexists; reflexivity.
Qed.

Lemma real_coordinate_not_None v : real_coordinate v -> is_None v = false.
Proof. intros [f H]. by destruct v. Qed.

Lemma real_pair_not_None v : real_pair v -> is_None v = false.
Proof. by intros (x & y & [-> | ->] & _). Qed.

(** The steps every operator takes on its way to the native call. *)
Lemma bind_resource {A} self h (k : handle -> M A) w :
  objects w !! self = Some (Some h) -> bind (resource self) k w = k h w.
Proof. intros Hl. unfold bind. by rewrite (resource_live _ _ _ Hl). Qed.

Lemma bind_float_arg {A} parse x f (k : cval -> M A) w :
  c_double x = inr f -> bind (Drawing.float_arg parse x) k w = k (CDouble f) w.
Proof.
  intros H. unfold bind, Drawing.float_arg, fmap_M, bind, lift, py_float.
  unfold c_double in H.
  destruct x; try discriminate; cbn [as_real] in *; by rewrite H.
Qed.

Lemma bind_c_double_arg {A} x f (k : cval -> M A) w :
  c_double x = inr f -> bind (c_double_arg x) k w = k (CDouble f) w.
Proof. intros H. unfold bind, c_double_arg. by rewrite H. Qed.

Lemma bind_unpack2 {A} v (k : pyval * pyval -> M A) w x y :
  v = PyTuple [x; y] \/ v = PyList [x; y] ->
  bind (lift (unpack2 v)) k w = k (x, y) w.
Proof. by intros [-> | ->]. Qed.

Ltac unfold_path_operators :=
  unfold Drawing.path_start, Drawing.path_finish, Drawing.path_close,
    Drawing.path_move, Drawing.path_line, Drawing.path_horizontal_line,
    Drawing.path_vertical_line, Drawing.path_curve,
    Drawing.path_curve_to_quadratic_bezier, Drawing.path_elliptic_arc.

(** Take a hypothesis [well_formed c], named [Hc], apart, down to the
    doubles its coordinates convert to, and pass the [None] tests. *)
Ltac split_well_formed Hc :=
  try match type of Hc with _ /\ _ => destruct Hc as [? Hc] end;
  try match goal with
      | H : context [truthy ?s] |- _ => destruct (truthy s) eqn:?
      end;
  repeat match goal with
    | H : exists c1 c2, _ |- context [is_None ?controls] =>
        let E := fresh "E" in
        destruct H as (? & ? & E & ? & ?);
        assert (is_None controls = false) by (by destruct E as [-> | ->])
    | H : false = false -> real_pair _ |- _ => specialize (H eq_refl)
    | H : true = false -> _ |- _ => clear H
    end;
  repeat match goal with
    | H : _ /\ _ |- _ => destruct H
    | H : real_pair _ |- _ =>
        pose proof (real_pair_not_None _ H);
        destruct H as (? & ? & ? & [? ?] & [? ?])
    | H : real_coordinate _ |- _ =>
        pose proof (real_coordinate_not_None _ H);
        destruct H as [? ?]
    end;
  repeat match goal with H : is_None _ = false |- _ => rewrite H; clear H end.

Ltac run_arguments Hl :=
  repeat first
    [ rewrite (bind_resource _ _ _ _ Hl)
    | erewrite bind_unpack2 by eassumption
    | erewrite bind_float_arg by eassumption
    | erewrite bind_c_double_arg by eassumption ];
  cbn [fst snd].

(** Concrete arguments are of the documented types. *)
Ltac real_arguments :=
  cbn [well_formed truthy];
  repeat match goal with
    | |- True => exact I
    | |- _ /\ _ => split
    | |- _ -> _ => intros _
    | |- real_pair _ => eexists _, _; split; [first [by left | by right] |]
    | |- real_coordinate _ => eexists; vm_compute; reflexivity
    | |- exists c1 c2, _ => eexists _, _; split; [first [by left | by right] |]
    end.

Lemma path_succeeds parse c self h w :
  well_formed c -> objects w !! self = Some (Some h) ->
  exists w', run_path parse c self w = (Ok (PyDrawing self), w').
Proof.
  intros Hc Hl.
  destruct c as [| | | to rel | to rel | x rel | y rel | to controls smooth rel
                | to control smooth rel | to radius rotation la cw rel];
    cbn [well_formed run_path] in *; unfold_path_operators.
  all: split_well_formed Hc.
  all: run_arguments Hl.
  all: unfold bind; run_call; eauto.
Qed.

(** C10. Whatever its arguments and the world, a call of any of the ten
    path-construction operators that returns at all returns the Drawing it
    was invoked on (the same object reference); and on a live Drawing, with
    arguments of the documented types, each of them does return. *)
Theorem path_operators_return_self (parse : string -> option float)
    (c : path_call) (self : oid) (w : world) :
  (forall v w', run_path parse c self w = (Ok v, w') -> v = PyDrawing self)
  /\ (forall h, well_formed c -> objects w !! self = Some (Some h) ->
        exists w', run_path parse c self w = (Ok (PyDrawing self), w')).
Proof.
  split.
  - intros v w'.
    destruct c; simpl; intros H;
      unfold Drawing.path_start, Drawing.path_finish, Drawing.path_close,
        Drawing.path_move, Drawing.path_line, Drawing.path_horizontal_line,
        Drawing.path_vertical_line, Drawing.path_curve,
        Drawing.path_curve_to_quadratic_bezier, Drawing.path_elliptic_arc in H;
      invert_run.
  - intros h Hc Hl. by apply path_succeeds with (h := h).
Qed.

Lemma path_operators_return_self_witness :
  (exists w', run_path no_parse PathStart 1%positive studio
                = (Ok (PyDrawing 1%positive), w'))
  /\ (exists w',
        run_path no_parse
          (PathLine (PyTuple [PyFloat 3; PyFloat 4]) (PyBool true)) 1%positive studio
        = (Ok (PyDrawing 1%positive), w'))
  /\ (exists w',
        run_path no_parse
          (PathEllipticArc (PyTuple [PyFloat 3; PyFloat 4]) (PyTuple [PyFloat 1; PyFloat 2])
             (PyFloat 0) (PyBool false) (PyBool true) (PyBool false)) 1%positive studio
        = (Ok (PyDrawing 1%positive), w')).
Proof.
  split; [| split].
  - apply (proj2 (path_operators_return_self no_parse PathStart 1%positive studio)
             1%positive); [exact I | reflexivity].
  - apply (proj2 (path_operators_return_self no_parse
                    (PathLine (PyTuple [PyFloat 3; PyFloat 4]) (PyBool true))
                    1%positive studio) 1%positive); [| reflexivity].
    real_arguments.
  - apply (proj2 (path_operators_return_self no_parse
                    (PathEllipticArc (PyTuple [PyFloat 3; PyFloat 4])
                       (PyTuple [PyFloat 1; PyFloat 2])
                       (PyFloat 0) (PyBool false) (PyBool true) (PyBool false))
                    1%positive studio) 1%positive); [| reflexivity].
    real_arguments.
Defined.

(** * Further properties *)

(** ** Outcomes of the enumerated-option properties *)
Lemma resource_closed self w :
  closed self w -> resource self w = (Raise DestroyedResourceError, w).
Proof.
  intros H. unfold resource.
  destruct (objects w !! self) as [[h |] |] eqn:E; try done. by destruct (H h).
Qed.

Lemma resource_outcome self w :
  (exists h, objects w !! self = Some (Some h) /\ resource self w = (Ok h, w))
  \/ (closed self w /\ resource self w = (Raise DestroyedResourceError, w)).
Proof.
  unfold resource, closed.
  destruct (objects w !! self) as [[h |] |] eqn:E; [left; eauto | right | right];
    split; try done.
Qed.

(** X1. An enumerated-option setter that raises has changed nothing, and
    it raises for one of three reasons only, tested in this order: the
    value is not a string (TypeError); it is a string outside the
    property's token list (ValueError); it is a token, and the Drawing
    holds no live wand (DestroyedResourceError). In particular the setter
    itself never raises a native error: it does not read the library's
    error channel. *)
Theorem enum_setter_failures (p : enum_property) (self : oid) (v : pyval)
    (w w' : world) (e : exn) :
  setter p self v w = (Raise e, w') ->
  w' = w
  /\ ((e = TypeError /\ is_string v = false)
      \/ (e = ValueError /\ is_string v = true /\ ~ In v (tokens p))
      \/ (e = DestroyedResourceError /\ In v (tokens p) /\ closed self w)).
Proof.
  rewrite setter_is_shape. unfold setter_shape.
  destruct (is_string v) eqn:Es; simpl; [| intros [= <- <-]; auto].
  destruct v as [| | | | s | | | |]; try discriminate.
  destruct (py_in (PyStr s) (tokens p)) eqn:Ei; simpl.
  - apply py_in_strings in Ei; [| apply tokens_strings].
    destruct (py_index_strings s _ (tokens_strings p) Ei) as (i & Hi & _).
    unfold bind, tuple_index. rewrite Hi.
    destruct (resource_outcome self w) as [(h & _ & ->) | [Hc ->]]; simpl.
    + unfold library_call. destruct (native _ _ _). discriminate.
    + intros [= <- <-]. auto 10.
  - intros [= <- <-]. split; [done |]. right. left. split; [done |]. split; [done |].
    intros Hin. apply (py_in_strings s _ (tokens_strings p)) in Hin. congruence.
Qed.

Lemma enum_setter_failures_witness :
  setter P_gravity 1%positive (PyStr "center") closed_studio
    = (Raise DestroyedResourceError, closed_studio)
  /\ closed_studio = closed_studio
  /\ ((DestroyedResourceError = TypeError /\ is_string (PyStr "center") = false)
      \/ (DestroyedResourceError = ValueError /\ is_string (PyStr "center") = true
          /\ ~ In (PyStr "center") (tokens P_gravity))
      \/ (DestroyedResourceError = DestroyedResourceError
          /\ In (PyStr "center") (tokens P_gravity) /\ closed 1%positive closed_studio)).
Proof.
  split; [reflexivity |].
  apply (enum_setter_failures P_gravity 1%positive (PyStr "center")
           closed_studio closed_studio DestroyedResourceError).
  reflexivity.
Defined.

Lemma seq_getitem_In t z x : seq_getitem t z = inr x -> In x t.
Proof.
  unfold seq_getitem. destruct (_ && _); [| discriminate].
  destruct (t !! _) as [y |] eqn:E; [| discriminate].
  intros [= <-]. apply list_elem_of_In. by eapply list_elem_of_lookup_2.
Qed.

Lemma tuple_getitem_In t i x : tuple_getitem t i = inr x -> In x t.
Proof. destruct i; simpl; try discriminate; apply seq_getitem_In. Qed.

(** ** Framing: what a setter and a getter leave alone *)
Lemma getter_shape_value failed t a self h dw w :
  objects w !! self = Some (Some h) -> wands w !! h = Some dw ->
  fst (getter_shape failed t a self w)
    = read_token failed t (wand_attr a dw) (exception dw).
Proof.
  intros Hl Hw. unfold getter_shape, bind, read_token.
  rewrite (resource_live _ _ _ Hl). unfold fmap_M, bind, library_call.
  rewrite native_DrawGet. simpl. rewrite Hw. simpl.
  destruct (failed (to_py (wand_attr a dw))); simpl.
  - unfold raise_exception, bind, resource. simpl. rewrite Hl.
    unfold library_call. simpl. rewrite Hw.
    destruct (exception dw); simpl; [done |].
    by destruct (tuple_getitem t _).
  - by destruct (tuple_getitem t _).
Qed.

Lemma getter_value p self h dw w :
  objects w !! self = Some (Some h) -> wands w !! h = Some dw ->
  fst (getter p self w)
    = read_token (test_fails (getter_test p) (tokens p)) (tokens p)
        (wand_attr (native_attr p) dw) (exception dw).
Proof. intros Hl Hw. rewrite getter_is_shape. by apply getter_shape_value with (h := h). Qed.

(** X2. Whatever an enumerated-option getter returns is a token of the
    property's own list. On a live Drawing with nothing in the wand's
    last-error channel, when the library answers the index [i] for a list
    of [n] tokens, the getter returns the token at position [i] if
    0 <= i < n, the token at position [n + i] if -n <= i < 0 (Python
    counts a negative index from the end of the tuple), and raises
    IndexError otherwise. *)
Theorem enum_getter_returns_token (p : enum_property) (self : oid) (w : world) :
  (forall v w', getter p self w = (Ok v, w') -> In v (tokens p))
  /\ (forall h dw i,
        objects w !! self = Some (Some h) -> wands w !! h = Some dw ->
        wand_attr (native_attr p) dw = CInt i -> exception dw = None ->
        let n := Z.of_nat (length (tokens p)) in
        (forall v, 0 <= i < n -> tokens p !! Z.to_nat i = Some v ->
           fst (getter p self w) = Ok v)
        /\ (forall v, - n <= i < 0 -> tokens p !! Z.to_nat (n + i) = Some v ->
           fst (getter p self w) = Ok v)
        /\ (i < - n \/ n <= i -> fst (getter p self w) = Raise IndexError)).
Proof.
  split.
  - intros v w'. rewrite getter_is_shape. unfold getter_shape. intros H.
    apply bind_Ok in H as (h & w1 & _ & H).
    apply bind_Ok in H as (index & w2 & _ & H).
    apply bind_Ok in H as (u & w3 & _ & H).
    apply bind_Ok in H as (x & w4 & Hx & H).
    injection H as <- _.
    unfold lift in Hx. destruct (tuple_getitem _ _) as [e | y] eqn:E; [discriminate |].
    injection Hx as <- _. by apply tuple_getitem_In in E.
  - intros h dw i Hl Hw Ha He n.
    rewrite (getter_value p self h dw w Hl Hw), Ha, He.
    unfold read_token.
    assert (Hn : forall b : bool, (if b then @None string else None) = None)
      by (by intros []).
    rewrite Hn.
    cbn [to_py tuple_getitem]. unfold seq_getitem. fold n. unfold text.
    split; [| split].
    + intros v Hi Hv.
      destruct (Z.ltb_spec i 0); [lia |].
      destruct (Z.leb_spec 0 i); [| lia].
      destruct (Z.ltb_spec i n); [| lia]. cbn. by rewrite Hv.
    + intros v Hi Hv.
      destruct (Z.ltb_spec i 0); [| lia].
      destruct (Z.leb_spec 0 (i + n)); [| lia].
      destruct (Z.ltb_spec (i + n) n); [| lia]. cbn.
      by rewrite Z.add_comm, Hv.
    + intros Hi.
      destruct (Z.ltb_spec i 0).
      * destruct (Z.leb_spec 0 (i + n)); [| done].
        destruct (Z.ltb_spec (i + n) n); [| done]. lia.
      * destruct (Z.leb_spec 0 i); [| done].
        destruct (Z.ltb_spec i n); [| done]. lia.
Qed.

Lemma enum_getter_returns_token_witness :
  In (PyStr "left_to_right") (tokens P_text_direction)
  /\ fst (getter P_gravity 1%positive (studio_with Gravity (CInt 5))) = Ok (PyStr "center")
  /\ fst (getter P_gravity 1%positive (studio_with Gravity (CInt (-1))))
     = Ok (PyStr "static")
  /\ fst (getter P_gravity 1%positive (studio_with Gravity (CInt 11))) = Raise IndexError
  /\ fst (getter P_gravity 1%positive (studio_with Gravity (CInt (-12))))
     = Raise IndexError.
Proof.
  split; [| split; [| split; [| split]]].
  - apply (proj1 (enum_getter_returns_token P_text_direction 1%positive studio)
             (PyStr "left_to_right")
             (snd (getter P_text_direction 1%positive studio))).
    reflexivity.
  - destruct (proj2 (enum_getter_returns_token P_gravity 1%positive
                       (studio_with Gravity (CInt 5)))
                1%positive (set_attr Gravity (CInt 5) sample_wand) 5
                eq_refl eq_refl eq_refl eq_refl) as (Hin & _ & _).
    apply Hin; [simpl; lia | reflexivity].
  - destruct (proj2 (enum_getter_returns_token P_gravity 1%positive
                       (studio_with Gravity (CInt (-1))))
                1%positive (set_attr Gravity (CInt (-1)) sample_wand) (-1)
                eq_refl eq_refl eq_refl eq_refl) as (_ & Hneg & _).
    apply Hneg; [simpl; lia | reflexivity].
  - destruct (proj2 (enum_getter_returns_token P_gravity 1%positive
                       (studio_with Gravity (CInt 11)))
                1%positive (set_attr Gravity (CInt 11) sample_wand) 11
                eq_refl eq_refl eq_refl eq_refl) as (_ & _ & Hout).
    apply Hout. simpl. lia.
  - destruct (proj2 (enum_getter_returns_token P_gravity 1%positive
                       (studio_with Gravity (CInt (-12))))
                1%positive (set_attr Gravity (CInt (-12)) sample_wand) (-12)
                eq_refl eq_refl eq_refl eq_refl) as (_ & _ & Hout).
    apply Hout. simpl. lia.
Defined.



Lemma setter_updates p self s h dw w :
  In (PyStr s) (tokens p) ->
  objects w !! self = Some (Some h) -> wands w !! h = Some dw ->
  exists i w',
    setter p self (PyStr s) w = (Ok PyNone, w')
    /\ objects w' = objects w
    /\ wands w' = <[h := set_attr (native_attr p) (CInt i) dw]> (wands w).
Proof.
  intros Hin Hl Hw. rewrite setter_is_shape.
  destruct (setter_shape_accepts _ (native_attr p) _ _ _ _ (tokens_strings p) Hin Hl)
    as (i & _ & _ & ->).
  eexists _, _. split; [reflexivity |].
  unfold on_wand. simpl. rewrite Hw. done.
Qed.



(** X4. Two live Drawings on different wands do not interfere: setting an
    enumerated-option property of one leaves every enumerated-option
    property of the other, the same property included, reading as
    before. *)
Theorem enum_setter_object_frame (p q : enum_property) (s : string) (a b : oid)
    (ha hb : handle) (dwa dwb : DrawingWand) (w : world) :
  In (PyStr s) (tokens p) ->
  objects w !! a = Some (Some ha) -> wands w !! ha = Some dwa ->
  objects w !! b = Some (Some hb) -> wands w !! hb = Some dwb ->
  ha <> hb ->
  exists w',
    setter p a (PyStr s) w = (Ok PyNone, w')
    /\ fst (getter q b w') = fst (getter q b w).
Proof.
  intros Hin Hla Hwa Hlb Hwb Hne.
  destruct (setter_updates p a s ha dwa w Hin Hla Hwa) as (i & w' & Hset & Ho & Hws).
  exists w'. split; [done |].
  rewrite (getter_value q b hb dwb w Hlb Hwb).
  rewrite (getter_value q b hb dwb w'); [done | by rewrite Ho |].
  by rewrite Hws, lookup_insert_ne.
Qed.

Lemma enum_setter_object_frame_witness :
  exists w',
    setter P_gravity 1%positive (PyStr "center") gallery = (Ok PyNone, w')
    /\ fst (getter P_gravity 2%positive w') = fst (getter P_gravity 2%positive gallery).
Proof.
  apply (enum_setter_object_frame P_gravity P_gravity "center" 1%positive 2%positive
           1%positive 2%positive sample_wand stale_wand gallery).
  - simpl. tauto.
  - reflexivity.
  - reflexivity.
  - reflexivity.
  - reflexivity.
  - discriminate.
Defined.

Lemma bind_inv {A B} (c : M A) (k : A -> M B) w r w' :
  bind c k w = (r, w') ->
  (exists e, c w = (Raise e, w') /\ r = Raise e)
  \/ exists a w1, c w = (Ok a, w1) /\ k a w1 = (r, w').
Proof.
  unfold bind. destruct (c w) as [[a | e] w1]; [eauto |].
  intros [= <- <-]. eauto.
Qed.

Lemma resource_world self w r w' : resource self w = (r, w') -> w' = w.
Proof.
  unfold resource. by destruct (objects w !! self) as [[h |] |]; intros [= <- <-].
Qed.

Lemma lift_world {A} (x : exn + A) w r w' : lift x w = (r, w') -> w' = w.
Proof. by destruct x; intros [= <- <-]. Qed.

Ltac forall_calls :=
  repeat match goal with
    | |- Forall _ (_ :: _) => constructor; [cbn; auto |]
    | |- Forall _ [] => constructor
    end.

(** X5. An enumerated-option getter never changes what is drawn. Whether
    it returns or raises, the Python objects, the pixel wands, the buffers
    and the library are as before, and the call trace has only grown, by
    calls of the property's own query entry point, of DrawGetException and
    of DrawClearException. The wands are as before too, with one
    exception: when the getter raises the native error that was pending
    on the Drawing's own wand, that wand is the same but for its
    last-error channel, which is emptied. *)
Theorem enum_getter_read_only (p : enum_property) (self : oid) (w w' : world)
    (r : result pyval) :
  getter p self w = (r, w') ->
  (exists cs,
     calls_added w w' cs
     /\ Forall (fun c => fn c = DrawGet (native_attr p) \/ fn c = DrawGetException
                         \/ fn c = DrawClearException) cs)
  /\ objects w' = objects w /\ pixels w' = pixels w /\ buffers w' = buffers w
  /\ library w' = library w
  /\ (wands w' = wands w
      \/ exists m h dw,
           r = Raise (WandException m)
           /\ objects w !! self = Some (Some h) /\ wands w !! h = Some dw
           /\ exception dw = Some m
           /\ wands w' = <[h := clear_exception dw]> (wands w)).
Proof.
  rewrite getter_is_shape.
  unfold getter_shape, bind, fmap_M, bind, resource, calls_added.
  destruct (objects w !! self) as [[h |] |] eqn:Hl; cbn;
    try (intros [= <- <-]; split; [exists []; by rewrite app_nil_r | auto 10]).
  unfold library_call. rewrite native_DrawGet. cbn.
  set (c1 := Call (DrawGet (native_attr p)) [CPtr h]).
  assert (Hq : Forall (fun c => fn c = DrawGet (native_attr p) \/ fn c = DrawGetException
                         \/ fn c = DrawClearException) [c1]) by forall_calls.
  destruct (wands w !! h) as [dw |] eqn:Hw; cbn.
  - destruct (test_fails (getter_test p) (tokens p) _); cbn.
    + unfold raise_exception, bind, resource. cbn. rewrite Hl. cbn.
      unfold library_call. cbn. rewrite Hw.
      destruct (exception dw) as [m |] eqn:He; cbn.
      * intros [= <- <-]. unfold on_wand. cbn. rewrite Hw. cbn.
        split.
        { eexists [c1; _; _]. rewrite <- !app_assoc. split; [reflexivity |].
          forall_calls. }
        repeat (split; [done |]). right. eauto 10.
      * destruct (tuple_getitem (tokens p) _); intros [= <- <-]; cbn;
          (split; [eexists [c1; _]; rewrite <- !app_assoc; split;
                     [reflexivity | forall_calls] | auto 10]).
    + destruct (tuple_getitem (tokens p) _); intros [= <- <-]; cbn;
        (split; [by exists [c1] | auto 10]).
  - destruct p; cbn; unfold raise_exception, bind, resource; cbn; rewrite ?Hl; cbn;
      unfold library_call; cbn; rewrite ?Hw; cbn; intros [= <- <-]; cbn;
      (split; [first [by exists [c1]
                     | eexists [c1; _]; rewrite <- !app_assoc; split;
                       [reflexivity | forall_calls]]
              | auto 10]).
Qed.

Lemma enum_getter_read_only_witness :
  fst (getter P_fill_rule 1%positive stale_studio)
    = Raise (WandException "MemoryAllocationFailed")
  /\ calls_added stale_studio (snd (getter P_fill_rule 1%positive stale_studio))
       [Call DrawGetFillRule [CPtr 1%positive]; Call DrawGetException [CPtr 1%positive];
        Call DrawClearException [CPtr 1%positive]]
  /\ wands (snd (getter P_fill_rule 1%positive stale_studio))
     = <[1%positive := clear_exception stale_wand]> (wands stale_studio)
  /\ (exists cs,
        calls_added stale_studio (snd (getter P_fill_rule 1%positive stale_studio)) cs
        /\ Forall (fun c => fn c = DrawGet (native_attr P_fill_rule)
                            \/ fn c = DrawGetException \/ fn c = DrawClearException) cs)
  /\ objects (snd (getter P_fill_rule 1%positive stale_studio)) = objects stale_studio
  /\ pixels (snd (getter P_fill_rule 1%positive stale_studio)) = pixels stale_studio
  /\ buffers (snd (getter P_fill_rule 1%positive stale_studio)) = buffers stale_studio
  /\ library (snd (getter P_fill_rule 1%positive stale_studio)) = library stale_studio
  /\ (wands (snd (getter P_fill_rule 1%positive stale_studio)) = wands stale_studio
      \/ exists m h dw,
           fst (getter P_fill_rule 1%positive stale_studio) = Raise (WandException m)
           /\ objects stale_studio !! 1%positive = Some (Some h)
           /\ wands stale_studio !! h = Some dw
           /\ exception dw = Some m
           /\ wands (snd (getter P_fill_rule 1%positive stale_studio))
              = <[h := clear_exception dw]> (wands stale_studio)).
Proof.
  split; [reflexivity |]. split; [reflexivity |]. split; [reflexivity |].
  apply (enum_getter_read_only P_fill_rule 1%positive stale_studio
           (snd (getter P_fill_rule 1%positive stale_studio))
           (fst (getter P_fill_rule 1%positive stale_studio))).
  reflexivity.
Defined.

(** ** Real-valued properties *)
Lemma fresh_lookup {A} (m : gmap positive A) : m !! fresh (dom m) = None.
Proof. apply not_elem_of_dom, is_fresh. Qed.

Lemma native_DrawSet_double a h f w :
  native (DrawSet a) [CPtr h; CDouble f] w = (CNull, on_wand h (set_attr a (CDouble f)) w).
Proof. by destruct a. Qed.

Lemma on_wand_library h f w : library (on_wand h f w) = library w.
Proof. unfold on_wand. by destruct (wands w !! h). Qed.

Ltac run_steps :=
  cbv beta iota zeta delta [bind ret raise lift fmap_M c_double_arg get_library].

Lemma real_setter_writes a self h dw f w :
  objects w !! self = Some (Some h) -> wands w !! h = Some dw ->
  exists w',
    (h <- resource self ;; x <- c_double_arg (PyFloat f) ;;
     library_call (DrawSet a) [CPtr h; x] ;; ret PyNone) w = (Ok PyNone, w')
    /\ objects w' = objects w /\ library w' = library w
    /\ wands w' = <[h := set_attr a (CDouble f) dw]> (wands w).
Proof.
  intros Hl Hw. run_steps. rewrite (resource_live _ _ _ Hl).
  unfold c_double. cbn [as_real num_to_float].
  unfold library_call. rewrite native_DrawSet_double.
  eexists. split; [reflexivity |].
  rewrite on_wand_objects, on_wand_library. unfold on_wand. cbn. rewrite Hw. done.
Qed.

Lemma real_getter_reads a self h dw w :
  objects w !! self = Some (Some h) -> wands w !! h = Some dw ->
  fst ((h <- resource self ;; fmap_M to_py (library_call (DrawGet a) [CPtr h])) w)
    = Ok (to_py (wand_attr a dw)).
Proof.
  intros Hl Hw. run_steps. rewrite (resource_live _ _ _ Hl).
  unfold library_call. rewrite native_DrawGet. cbn. by rewrite Hw.
Qed.

Lemma c_double_is_Real v f : c_double v = inr f -> is_Real v = true.
Proof. unfold c_double, is_Real. by destruct (as_real v). Qed.

Lemma font_size_setter_writes self h dw v f w :
  objects w !! self = Some (Some h) -> wands w !! h = Some dw ->
  py_lt v (PyFloat 0) = inr false -> c_double v = inr f ->
  exists w',
    Drawing.font_size_setter self v w = (Ok PyNone, w')
    /\ objects w' = objects w /\ library w' = library w
    /\ wands w' = <[h := set_attr FontSize (CDouble f) dw]> (wands w).
Proof.
  intros Hl Hw Hlt Hc.
  destruct (real_setter_writes FontSize self h dw f w Hl Hw) as (w' & H & Hrest).
  exists w'. split; [| done]. rewrite <- H.
  unfold Drawing.font_size_setter. rewrite (c_double_is_Real _ _ Hc).
  run_steps. rewrite Hlt. unfold c_double at 2. cbn [as_real num_to_float].
  by rewrite Hc.
Qed.

Lemma stroke_width_setter_writes self h dw v f w :
  objects w !! self = Some (Some h) -> wands w !! h = Some dw ->
  py_lt v (PyFloat 0) = inr false -> c_double v = inr f ->
  exists w',
    Drawing.stroke_width_setter self v w = (Ok PyNone, w')
    /\ objects w' = objects w /\ library w' = library w
    /\ wands w' = <[h := set_attr StrokeWidth (CDouble f) dw]> (wands w).
Proof.
  intros Hl Hw Hlt Hc.
  destruct (real_setter_writes StrokeWidth self h dw f w Hl Hw) as (w' & H & Hrest).
  exists w'. split; [| done]. rewrite <- H.
  unfold Drawing.stroke_width_setter. rewrite (c_double_is_Real _ _ Hc).
  run_steps. rewrite Hlt. unfold c_double at 2. cbn [as_real num_to_float].
  by rewrite Hc.
Qed.

Lemma interline_setter_writes self h dw v f w :
  has_DrawSetTextInterlineSpacing (library w) = true ->
  objects w !! self = Some (Some h) -> wands w !! h = Some dw ->
  c_double v = inr f ->
  exists w',
    Drawing.text_interline_spacing_setter self v w = (Ok PyNone, w')
    /\ objects w' = objects w /\ library w' = library w
    /\ wands w' = <[h := set_attr TextInterlineSpacing (CDouble f) dw]> (wands w).
Proof.
  intros Hs Hl Hw Hc.
  destruct (real_setter_writes TextInterlineSpacing self h dw f w Hl Hw)
    as (w' & H & Hrest).
  exists w'. split; [| done]. rewrite <- H.
  unfold Drawing.text_interline_spacing_setter.
  run_steps. rewrite Hs, (c_double_is_Real _ _ Hc).
  unfold c_double at 2. cbn [as_real num_to_float negb]. by rewrite Hc.
Qed.

(** X6. font_size and stroke_width round-trip through the native
    double: on a live Drawing, setting either to a real that is not below
    zero and that a C double can hold returns, and reading the property
    back gives that real as a float (12 is read back as 12.0). *)
Theorem size_round_trip (self : oid) (h : handle) (dw : DrawingWand) (v : pyval)
    (f : float) (w : world) :
  objects w !! self = Some (Some h) -> wands w !! h = Some dw ->
  py_lt v (PyFloat 0) = inr false -> c_double v = inr f ->
  (exists w', Drawing.font_size_setter self v w = (Ok PyNone, w')
              /\ fst (Drawing.font_size self w') = Ok (PyFloat f))
  /\ (exists w', Drawing.stroke_width_setter self v w = (Ok PyNone, w')
                 /\ fst (Drawing.stroke_width self w') = Ok (PyFloat f)).
Proof.
  intros Hl Hw Hlt Hc. split.
  - destruct (font_size_setter_writes self h dw v f w Hl Hw Hlt Hc)
      as (w' & H & Ho & _ & Hws).
    exists w'. split; [done |]. unfold Drawing.font_size.
    rewrite (real_getter_reads FontSize self h (set_attr FontSize (CDouble f) dw)).
    + by rewrite wand_attr_set.
    + by rewrite Ho.
    + rewrite Hws. apply lookup_insert_eq.
  - destruct (stroke_width_setter_writes self h dw v f w Hl Hw Hlt Hc)
      as (w' & H & Ho & _ & Hws).
    exists w'. split; [done |]. unfold Drawing.stroke_width.
    rewrite (real_getter_reads StrokeWidth self h (set_attr StrokeWidth (CDouble f) dw)).
    + by rewrite wand_attr_set.
    + by rewrite Ho.
    + rewrite Hws. apply lookup_insert_eq.
Qed.

Lemma size_round_trip_witness :
  (exists w', Drawing.font_size_setter 1%positive (PyInt 7) studio = (Ok PyNone, w')
              /\ fst (Drawing.font_size 1%positive w') = Ok (PyFloat 7))
  /\ (exists w', Drawing.stroke_width_setter 1%positive (PyInt 7) studio = (Ok PyNone, w')
                 /\ fst (Drawing.stroke_width 1%positive w') = Ok (PyFloat 7)).
Proof.
  apply (size_round_trip 1%positive 1%positive sample_wand (PyInt 7) 7%float studio);
    reflexivity.
Defined.

(** X7. With both inter-line spacing entry points exported by the
    library, the text_interline_spacing setter raises TypeError on a value
    that is not a real and changes nothing; on a live Drawing it accepts
    every real a C double can hold, negative ones too (unlike font_size
    and stroke_width it makes no sign test), and the getter reads that
    real back as a float. *)
Theorem interline_spacing_round_trip (self : oid) (w : world) :
  has_DrawGetTextInterlineSpacing (library w) = true ->
  has_DrawSetTextInterlineSpacing (library w) = true ->
  (forall v, is_Real v = false ->
     Drawing.text_interline_spacing_setter self v w = (Raise TypeError, w))
  /\ (forall h dw v f,
        objects w !! self = Some (Some h) -> wands w !! h = Some dw ->
        c_double v = inr f ->
        exists w',
          Drawing.text_interline_spacing_setter self v w = (Ok PyNone, w')
          /\ fst (Drawing.text_interline_spacing self w') = Ok (PyFloat f)).
Proof.
  intros Hg Hs. split.
  - intros v Hv. unfold Drawing.text_interline_spacing_setter, bind, get_library.
    by rewrite Hs, Hv.
  - intros h dw v f Hl Hw Hc.
    destruct (interline_setter_writes self h dw v f w Hs Hl Hw Hc)
      as (w' & H & Ho & Hlib & Hws).
    exists w'. split; [done |]. unfold Drawing.text_interline_spacing.
    unfold bind at 1. unfold get_library. rewrite Hlib, Hg. cbn [negb].
    rewrite (real_getter_reads TextInterlineSpacing self h
               (set_attr TextInterlineSpacing (CDouble f) dw)).
    + by rewrite wand_attr_set.
    + by rewrite Ho.
    + rewrite Hws. apply lookup_insert_eq.
Qed.

Lemma interline_spacing_round_trip_witness :
  Drawing.text_interline_spacing_setter 1%positive (PyStr "wide") studio
    = (Raise TypeError, studio)
  /\ exists w',
       Drawing.text_interline_spacing_setter 1%positive (PyFloat (-2.5)) studio
         = (Ok PyNone, w')
       /\ fst (Drawing.text_interline_spacing 1%positive w') = Ok (PyFloat (-2.5)).
Proof.
  destruct (interline_spacing_round_trip 1%positive studio eq_refl eq_refl)
    as [Hbad Hgood].
  split.
  - apply Hbad. reflexivity.
  - apply (Hgood 1%positive sample_wand (PyFloat (-2.5)) (-2.5)%float); reflexivity.
Defined.

(** ** Stroke colour, the constructor and clone *)
Lemma stroke_color_setter_scoped self h dw raw w :
  objects w !! self = Some (Some h) -> wands w !! h = Some dw ->
  exists w', Drawing.stroke_color_setter self (PyColor raw) w = (Ok PyNone, w')
    /\ objects w' = objects w /\ pixels w' = pixels w
    /\ wands w' = <[h := set_attr StrokeColor (CPacket raw) dw]> (wands w).
Proof.
  intros Hl Hw.
  unfold Drawing.stroke_color_setter, with_color, finally, bind, library_call, resource.
  cbn. rewrite Hl. cbn. unfold on_wand. cbn. rewrite Hw. cbn.
  rewrite lookup_insert_eq. cbn.
  eexists. split; [reflexivity |]. cbn. split; [done |]. split; [| done].
  rewrite insert_insert_eq. apply delete_insert_id, fresh_lookup.
Qed.

(** X8. The stroke_color setter raises TypeError on anything that is
    not a Color, changing nothing; on a live Drawing, setting a Color
    returns, and reading stroke_color back gives a Color of the same raw
    pixel packet. *)
Theorem stroke_color_round_trip (self : oid) (w : world) :
  (forall v, is_Color v = false ->
     Drawing.stroke_color_setter self v w = (Raise TypeError, w))
  /\ (forall h dw raw,
        objects w !! self = Some (Some h) -> wands w !! h = Some dw ->
        exists w',
          Drawing.stroke_color_setter self (PyColor raw) w = (Ok PyNone, w')
          /\ fst (Drawing.stroke_color self w') = Ok (PyColor raw)).
Proof.
  split; [by intros [] |].
  intros h dw raw Hl Hw.
  destruct (stroke_color_setter_scoped self h dw raw w Hl Hw) as (w' & H & Ho & _ & Hws).
  exists w'. split; [done |].
  rewrite (stroke_color_reads self h (set_attr StrokeColor (CPacket raw) dw)).
  - unfold wand_stroke_color. by rewrite wand_attr_set.
  - by rewrite Ho.
  - rewrite Hws. apply lookup_insert_eq.
Qed.

Lemma stroke_color_round_trip_witness :
  Drawing.stroke_color_setter 1%positive (PyStr "red") studio = (Raise TypeError, studio)
  /\ exists w',
       Drawing.stroke_color_setter 1%positive (PyColor [255; 0; 0]) studio
         = (Ok PyNone, w')
       /\ fst (Drawing.stroke_color 1%positive w') = Ok (PyColor [255; 0; 0]).
Proof.
  destruct (stroke_color_round_trip 1%positive studio) as [Hbad Hgood].
  split.
  - apply Hbad. reflexivity.
  - apply (Hgood 1%positive sample_wand [255; 0; 0]); reflexivity.
Defined.

(** X9. Every read of stroke_color, whether it returns or raises, leaves
    one more pixel wand in the native heap than it found: its first native
    call is NewPixelWand, made before the Drawing's own wand is looked at,
    and none of its calls is DestroyPixelWand. *)
Theorem stroke_color_keeps_pixel_wand (self : oid) (w w' : world) (r : result pyval) :
  Drawing.stroke_color self w = (r, w') ->
  size (pixels w') = S (size (pixels w))
  /\ Forall (fun c => fn c <> DestroyPixelWand) (drop (length (trace w)) (trace w'))
  /\ head (drop (length (trace w)) (trace w')) = Some (Call NewPixelWand []).
Proof.
  unfold Drawing.stroke_color, bind, library_call, resource. cbn.
  assert (Hs : forall x, size (<[fresh (dom (pixels w)) := x]> (pixels w))
                         = S (size (pixels w))).
  { intros x. apply map_size_insert_None, fresh_lookup. }
  destruct (objects w !! self) as [[h |] |]; cbn.
  - destruct (wands w !! h) as [dw |]; cbn.
    + destruct (wand_attr StrokeColor dw); cbn; intros [= <- <-]; cbn;
        rewrite ?insert_insert_eq, Hs, <- ?app_assoc, drop_app_length; cbn;
        (split; [done |]); (split; [| done]); repeat constructor; discriminate.
    + intros [= <- <-]; cbn.
      rewrite Hs, <- ?app_assoc, drop_app_length; cbn.
      (split; [done |]); (split; [| done]); repeat constructor; discriminate.
  - intros [= <- <-]; cbn. rewrite Hs, drop_app_length; cbn.
    (split; [done |]); (split; [| done]); repeat constructor; discriminate.
  - intros [= <- <-]; cbn. rewrite Hs, drop_app_length; cbn.
    (split; [done |]); (split; [| done]); repeat constructor; discriminate.
Qed.

Lemma stroke_color_keeps_pixel_wand_witness :
  size (pixels (snd (Drawing.stroke_color 1%positive closed_studio)))
    = S (size (pixels closed_studio))
  /\ Forall (fun c => fn c <> DestroyPixelWand)
       (drop (length (trace closed_studio))
          (trace (snd (Drawing.stroke_color 1%positive closed_studio))))
  /\ head (drop (length (trace closed_studio))
             (trace (snd (Drawing.stroke_color 1%positive closed_studio))))
     = Some (Call NewPixelWand []).
Proof.
  apply (stroke_color_keeps_pixel_wand 1%positive closed_studio
           (snd (Drawing.stroke_color 1%positive closed_studio))
           (fst (Drawing.stroke_color 1%positive closed_studio))).
  reflexivity.
Defined.

(** X10. A clone starts as a copy: right after [clone()] of a live
    Drawing, the clone is live on a wand whose state equals the source's,
    the source's wand is as it was, and every enumerated-option property,
    font_size, stroke_width and stroke_color read the same on the clone as
    on the source (the same value, or the same error). *)
Theorem clone_duplicates_state (d : oid) (h : handle) (dw : DrawingWand) (w : world) :
  objects w !! d = Some (Some h) -> wands w !! h = Some dw ->
  exists c h' w1,
    Drawing.clone d w = (Ok (PyDrawing c), w1)
    /\ objects w1 !! c = Some (Some h')
    /\ wands w1 !! h' = Some dw /\ wands w1 !! h = Some dw
    /\ (forall q, fst (getter q c w1) = fst (getter q d w1))
    /\ fst (Drawing.font_size c w1) = fst (Drawing.font_size d w1)
    /\ fst (Drawing.stroke_width c w1) = fst (Drawing.stroke_width d w1)
    /\ fst (Drawing.stroke_color c w1) = fst (Drawing.stroke_color d w1).
Proof.
  intros Hl Hw.
  destruct (clone_duplicates d h dw w Hl Hw) as (w1 & Hclone & Ho & Hws & Hc & Hh).
  set (c := fresh (dom (objects w))) in *. set (h' := fresh (dom (wands w))) in *.
  assert (Hlc : objects w1 !! c = Some (Some h')) by (rewrite Ho; apply lookup_insert_eq).
  assert (Hld : objects w1 !! d = Some (Some h)) by (by rewrite Ho, lookup_insert_ne).
  assert (Hwc : wands w1 !! h' = Some dw) by (rewrite Hws; apply lookup_insert_eq).
  assert (Hwd : wands w1 !! h = Some dw) by (by rewrite Hws, lookup_insert_ne).
  exists c, h', w1. repeat (split; [done |]). split; [| split; [| split]].
  - intros q. by rewrite (getter_value q c h' dw), (getter_value q d h dw).
  - unfold Drawing.font_size.
    by rewrite (real_getter_reads _ c h' dw), (real_getter_reads _ d h dw).
  - unfold Drawing.stroke_width.
    by rewrite (real_getter_reads _ c h' dw), (real_getter_reads _ d h dw).
  - by rewrite (stroke_color_reads c h' dw), (stroke_color_reads d h dw).
Qed.

Lemma clone_duplicates_state_witness :
  exists c h' w1,
    Drawing.clone 1%positive stale_studio = (Ok (PyDrawing c), w1)
    /\ objects w1 !! c = Some (Some h')
    /\ wands w1 !! h' = Some stale_wand /\ wands w1 !! 1%positive = Some stale_wand
    /\ (forall q, fst (getter q c w1) = fst (getter q 1%positive w1))
    /\ fst (Drawing.font_size c w1) = fst (Drawing.font_size 1%positive w1)
    /\ fst (Drawing.stroke_width c w1) = fst (Drawing.stroke_width 1%positive w1)
    /\ fst (Drawing.stroke_color c w1) = fst (Drawing.stroke_color 1%positive w1).
Proof.
  apply (clone_duplicates_state 1%positive 1%positive stale_wand stale_studio);
    reflexivity.
Defined.

Lemma closed_studio_closed : closed 1%positive closed_studio.
Proof. intros h. vm_compute. discriminate. Qed.

(** X11. The three outcomes of the constructor. A falsy argument (None,
    but also 0 or an empty string: the test is [not drawing]) gives a new
    live Drawing on a new wand in the library's initial state. A truthy
    argument that is not a Drawing raises TypeError, and a Drawing that
    holds no live wand raises DestroyedResourceError; in both cases no
    wand is created and no native call is made. *)
Theorem constructor_outcomes (v : pyval) (w : world) :
  (truthy v = false ->
     exists w',
       Drawing.__init__ v w = (Ok (PyDrawing (fresh (dom (objects w)))), w')
       /\ objects w' = <[fresh (dom (objects w)) := Some (fresh (dom (wands w)))]> (objects w)
       /\ wands w' = <[fresh (dom (wands w)) := NewWand (library w)]> (wands w))
  /\ (truthy v = true -> (forall d, v <> PyDrawing d) ->
     exists w', Drawing.__init__ v w = (Raise TypeError, w')
                /\ wands w' = wands w /\ trace w' = trace w)
  /\ (forall d, v = PyDrawing d -> closed d w ->
     exists w', Drawing.__init__ v w = (Raise DestroyedResourceError, w')
                /\ wands w' = wands w /\ trace w' = trace w).
Proof.
  split; [| split].
  - intros Hv. unfold Drawing.__init__. rewrite Hv. cbn [negb].
    unfold bind at 1. unfold library_call at 1. cbn.
    unfold set_resource, bind, library_call. cbn.
    rewrite lookup_insert_eq. rewrite bool_decide_eq_true_2 by eauto. cbn.
    eexists. split; [reflexivity |]. cbn. by rewrite insert_insert_eq.
  - intros Hv Hn. unfold Drawing.__init__. rewrite Hv. cbn [negb].
    destruct v as [| | | | | | | | o]; try (eexists; split; [reflexivity | done]).
    by destruct (Hn o).
  - intros d -> Hc. unfold Drawing.__init__. cbn.
    unfold bind, resource. cbn.
    assert (fresh (dom (objects w)) <> d \/ fresh (dom (objects w)) = d) as [Hne | He]
      by (destruct (decide (fresh (dom (objects w)) = d)); auto).
    + rewrite lookup_insert_ne by done.
      destruct (objects w !! d) as [[h |] |] eqn:E; [by destruct (Hc h) | |];
        (eexists; split; [reflexivity | done]).
    + rewrite He, lookup_insert_eq. eexists; split; [reflexivity | done].
Qed.

Lemma constructor_outcomes_witness :
  (exists w',
     Drawing.__init__ (PyInt 0) studio
       = (Ok (PyDrawing (fresh (dom (objects studio)))), w')
     /\ objects w'
        = <[fresh (dom (objects studio)) := Some (fresh (dom (wands studio)))]>
            (objects studio)
     /\ wands w' = <[fresh (dom (wands studio)) := NewWand (library studio)]> (wands studio))
  /\ (exists w', Drawing.__init__ (PyInt 5) studio = (Raise TypeError, w')
                 /\ wands w' = wands studio /\ trace w' = trace studio)
  /\ (exists w',
        Drawing.__init__ (PyDrawing 1%positive) closed_studio
          = (Raise DestroyedResourceError, w')
        /\ wands w' = wands closed_studio /\ trace w' = trace closed_studio).
Proof.
  split; [| split].
  - apply (proj1 (constructor_outcomes (PyInt 0) studio)). reflexivity.
  - apply (proj1 (proj2 (constructor_outcomes (PyInt 5) studio)));
      [reflexivity | discriminate].
  - apply (proj2 (proj2 (constructor_outcomes (PyDrawing 1%positive) closed_studio))
             1%positive eq_refl closed_studio_closed).
Defined.

(** ** rectangle: failures *)
Lemma leaves_ret {A} (a : A) : leaves_world (ret a).
Proof. by intros w r w' [= <- <-]. Qed.

Lemma leaves_raise {A} e : leaves_world (@raise A e).
Proof. by intros w r w' [= <- <-]. Qed.

Lemma leaves_lift {A} (x : exn + A) : leaves_world (lift x).
Proof. destruct x; [apply leaves_raise | apply leaves_ret]. Qed.

Lemma leaves_resource self : leaves_world (resource self).
Proof. intros w r w'. apply resource_world. Qed.

Lemma leaves_c_double_arg v : leaves_world (c_double_arg v).
Proof. unfold c_double_arg. destruct (c_double v); [apply leaves_raise | apply leaves_ret]. Qed.

Lemma leaves_bind {A B} (c : M A) (k : A -> M B) :
  leaves_world c -> (forall a, leaves_world (k a)) -> leaves_world (bind c k).
Proof.
  intros Hc Hk w r w' H.
  apply bind_inv in H as [(e & H & _) | (a & w1 & H1 & H)]; [by apply Hc in H |].
  apply Hc in H1 as ->. by apply Hk in H.
Qed.

Lemma leaves_if {A} (b : bool) (c1 c2 : M A) :
  leaves_world c1 -> leaves_world c2 -> leaves_world (if b then c1 else c2).
Proof. by destruct b. Qed.

Lemma leaves_float_arg parse v : leaves_world (Drawing.float_arg parse v).
Proof.
  unfold Drawing.float_arg, fmap_M.
  apply leaves_bind; [apply leaves_lift | intros; apply leaves_ret].
Qed.

Create HintDb leaves.
#[export] Hint Resolve leaves_ret leaves_raise leaves_lift leaves_resource
  leaves_c_double_arg leaves_float_arg : leaves.
#[export] Hint Extern 2 (leaves_world (bind _ _)) =>
  apply leaves_bind; [| intros] : leaves.
#[export] Hint Extern 2 (leaves_world (if _ then _ else _)) => apply leaves_if : leaves.

Lemma raise_exception_live self h w e w' :
  objects w !! self = Some (Some h) ->
  raise_exception self w = (Raise e, w') -> exists m, e = WandException m.
Proof.
  intros Hl. unfold raise_exception, bind. rewrite (resource_live _ _ _ Hl).
  unfold library_call. cbn.
  destruct (wands w !! h) as [dw |]; [destruct (exception dw) |]; cbn;
    intros [= <- _]; eauto.
Qed.

(** A native call adds itself to the trace and leaves the Python objects
    alone. *)
Lemma native_keeps f a w : objects (snd (native f a w)) = objects w
                           /\ trace (snd (native f a w)) = trace w
                           /\ library (snd (native f a w)) = library w.
Proof.
  unfold native.
  repeat (case_match; simpl;
          rewrite ?on_wand_objects, ?on_wand_trace, ?on_wand_library; try done).
Qed.

Lemma library_call_extends f a w r w' :
  library_call f a w = (Ok r, w') ->
  objects w' = objects w /\ trace w' = (trace w ++ [Call f a])%list.
Proof.
  unfold library_call.
  pose proof (native_keeps f a (with_trace (trace w ++ [Call f a]) w)) as (Ho & Ht & _).
  destruct (native f a _) as [r0 w0]. intros [= _ <-]. by split.
Qed.

Ltac pure_step H :=
  match type of H with
  | ?c ?w = (_, _) =>
      let L := fresh "L" in
      assert (L : leaves_world c) by (eauto 12 with leaves);
      apply L in H; clear L
  end.





(** X13. rectangle raises TypeError, leaving the world as it was, when
    left or top is missing or not a real, when neither right nor width is
    given, when neither bottom nor height is given, or when one of right,
    bottom, width, height is given and is not a real. *)
Theorem rectangle_type_errors (self : oid)
    (left top right bottom width height : pyval) (w : world) :
  is_Real left = false \/ is_Real top = false
  \/ (is_None right = true /\ is_None width = true)
  \/ (is_None bottom = true /\ is_None height = true)
  \/ (is_None right = false /\ is_Real right = false)
  \/ (is_None bottom = false /\ is_Real bottom = false)
  \/ (is_None width = false /\ is_Real width = false)
  \/ (is_None height = false /\ is_Real height = false) ->
  Drawing.rectangle self left top right bottom width height w = (Raise TypeError, w).
Proof.
  unfold Drawing.rectangle. intros H.
  repeat match goal with
    | |- (if ?b then raise TypeError else _) _ = _ =>
        destruct b eqn:?; [reflexivity |]
    end.
  exfalso.
  repeat match goal with
    | H : negb _ = false |- _ => apply negb_false_iff in H
    | H : _ && _ = false |- _ => apply andb_false_iff in H
    | H : _ || _ = true |- _ => apply orb_true_iff in H
    end.
  intuition congruence.
Qed.

Lemma rectangle_type_errors_witness :
  Drawing.rectangle 1%positive (PyInt 0) (PyInt 0) (PyStr "10") (PyInt 20)
    PyNone PyNone studio = (Raise TypeError, studio)
  /\ Drawing.rectangle 1%positive (PyInt 0) (PyInt 0) (PyInt 10) PyNone
       PyNone PyNone studio = (Raise TypeError, studio).
Proof.
  split.
  - apply rectangle_type_errors. do 4 right. left. split; reflexivity.
  - apply rectangle_type_errors. do 3 right. left. split; reflexivity.
Defined.

(** X14. In the width-and-height form, rectangle raises ValueError and
    leaves the world as it was when the width is negative, and when the
    height is negative provided [left + width] can be computed (a float
    sum with an int too large for a double raises OverflowError first,
    since the right edge is computed before the height is tested). *)
Theorem rectangle_negative_extent (self : oid) (left top width height : pyval)
    (w : world) :
  is_Real left = true -> is_Real top = true ->
  is_Real width = true -> is_Real height = true ->
  py_lt width (PyInt 0) = inr true
  \/ ((exists right, py_add left width = inr right)
      /\ py_lt height (PyInt 0) = inr true) ->
  Drawing.rectangle self left top PyNone PyNone width height w = (Raise ValueError, w).
Proof.
  intros Hl Ht Hw Hh Hneg. unfold Drawing.rectangle.
  rewrite (is_Real_not_None _ Hl), (is_Real_not_None _ Ht),
    (is_Real_not_None _ Hw), (is_Real_not_None _ Hh), Hl, Ht, Hw, Hh. cbn.
  unfold bind at 1. unfold bind at 1.
  destruct (py_lt_Real width (PyInt 0) Hw eq_refl) as [c Hc]. rewrite Hc. cbn.
  destruct c; [reflexivity |].
  destruct Hneg as [Hneg | [[right' Ha] Hneg]]; [congruence |].
  rewrite Ha. cbn. unfold bind at 1. unfold bind at 1. rewrite Hneg. reflexivity.
Qed.

Lemma rectangle_negative_extent_witness :
  Drawing.rectangle 1%positive (PyInt 0) (PyInt 0) PyNone PyNone
    (PyInt (-1)) (PyInt 20) studio = (Raise ValueError, studio)
  /\ Drawing.rectangle 1%positive (PyInt 0) (PyFloat 1.5) PyNone PyNone
       (PyInt 10) (PyFloat (-0.5)) studio = (Raise ValueError, studio).
Proof.
  split.
  - apply rectangle_negative_extent; try reflexivity. left. reflexivity.
  - apply rectangle_negative_extent; try reflexivity. right.
    split; [eexists; reflexivity | reflexivity].
Defined.

(** ** Coordinate marshalling: the loop *)
Lemma only_buffers_refl w : only_buffers w w.
Proof. by repeat split. Qed.

Section loop.

Variables (pts : list pyval) (p : handle).

Lemma store_coordinate_reads k w :
  store_coordinate pts p k w
    = match coordinate pts k with
      | inl e => (Raise e, w)
      | inr x => c_array_setitem p k x w
      end.
Proof.
  unfold store_coordinate, coordinate, bind. cbv zeta.
  destruct (seq_getitem pts (k / 2)) as [e | point]; [done |]. cbn.
  destruct (py_getitem point (k mod 2)) as [e | c]; [done |]. cbn.
  by destruct (c_double c).
Qed.

(** Rounds [k], ..., [k + m - 1] of the loop, on an array of [n] doubles:
    they stop at the first read that fails, and otherwise store one double
    each, in order. *)
Lemma loop_outcome (n m k : nat) (a : list float) (w : world) :
  buffers w !! p = Some a -> length a = n -> (k + m = n)%nat ->
  exists w',
    only_buffers w w'
    /\ match first_failure pts (map Z.of_nat (seq k m)) with
       | Some e =>
           fst (for_each (map Z.of_nat (seq k m)) (store_coordinate pts p) w) = Raise e
           /\ snd (for_each (map Z.of_nat (seq k m)) (store_coordinate pts p) w) = w'
           /\ is_Some (buffers w' !! p)
       | None =>
           for_each (map Z.of_nat (seq k m)) (store_coordinate pts p) w = (Ok tt, w')
           /\ buffers w' !! p = Some (take k a ++ map (double_at pts) (seq k m))%list
       end.
Proof.
  revert k a w. induction m as [| m IH]; intros k a w Hb Hlen Hk.
  - exists w. split; [apply only_buffers_refl |]. cbn. split; [done |].
    rewrite app_nil_r, take_ge by lia. done.
  - cbn [seq map for_each first_failure]. unfold bind. rewrite store_coordinate_reads.
    unfold double_at at 1.
    destruct (coordinate pts (Z.of_nat k)) as [e | x] eqn:Ec.
    + exists w. split; [apply only_buffers_refl |]. cbn. eauto.
    + unfold c_array_setitem. rewrite Hb.
      destruct (Z.leb_spec 0 (Z.of_nat k)); [| lia].
      destruct (Z.ltb_spec (Z.of_nat k) (Z.of_nat (length a))); [| lia]. cbn.
      rewrite Nat2Z.id.
      set (w1 := with_buffers _ w).
      destruct (IH (S k) (<[k := x]> a) w1) as (w' & Hob & Hres).
      { apply lookup_insert_eq. } { by rewrite length_insert. } { lia. }
      exists w'. split.
      { destruct Hob as (? & ? & ? & ? & ?). by repeat split. }
      destruct (first_failure pts (map Z.of_nat (seq (S k) m))) as [e |].
      * destruct (for_each _ _ w1) as [r w2]. cbn in *.
        destruct Hres as (-> & -> & ?). done.
      * destruct Hres as (-> & Hbuf). split; [done |].
        rewrite Hbuf. f_equal.
        rewrite (take_S_r _ _ x) by (apply list_lookup_insert_eq; lia).
        rewrite take_insert_ge by lia. by rewrite <- app_assoc.
Qed.

End loop.

(** X15. The exact outcome of [_list_to_point_info] on any list, valid or
    not. It always allocates the array of doubles, and touches nothing but
    the buffers. It reads the coordinates in order, two per point; at the
    first read that fails (an entry that is not a pair, a pair that is too
    short, a coordinate that is no real) it raises that read's error, the
    array stays allocated, and polygon, polyline and bezier raise the same
    error without any native call. When no read fails it returns the
    number of points and the array, which holds the coordinates in order;
    entries of a point beyond its second are never read. *)
Theorem marshalling_outcome (pts : list pyval) (w : world) :
  exists w',
    only_buffers w w'
    /\ is_Some (buffers w' !! fresh (dom (buffers w)))
    /\ match first_failure pts (xrange (2 * Z.of_nat (length pts))) with
       | Some e =>
           _list_to_point_info (PyList pts) w = (Raise e, w')
           /\ forall s self, exists w2,
                draw_points s self (PyList pts) w = (Raise e, w2) /\ trace w2 = trace w
       | None =>
           _list_to_point_info (PyList pts) w
             = (Ok (Z.of_nat (length pts), fresh (dom (buffers w))), w')
           /\ buffers w' !! fresh (dom (buffers w))
              = Some (map (double_at pts) (seq 0 (2 * length pts)))
       end.
Proof.
  set (n := (2 * length pts)%nat).
  set (p := fresh (dom (buffers w))).
  set (w0 := with_buffers (<[p := replicate n 0%float]> (buffers w)) w).
  destruct (loop_outcome pts p n n 0 (replicate n 0%float) w0) as (w' & Hob & Hres).
  { apply lookup_insert_eq. } { apply length_replicate. } { lia. }
  assert (Hrun : _list_to_point_info (PyList pts) w
                 = (let (r, w1) := for_each (map Z.of_nat (seq 0 n))
                                     (store_coordinate pts p) w0 in
                    match r with
                    | Ok _ => (Ok (Z.of_nat (length pts), p), w1)
                    | Raise e => (Raise e, w1)
                    end)).
  { unfold _list_to_point_info, bind, new_c_double_array, xrange.
    replace (Z.to_nat (Z.of_nat (length pts) * 2)) with n by (unfold n; lia).
    fold p. fold w0. reflexivity. }
  unfold xrange. replace (Z.to_nat (2 * Z.of_nat (length pts))) with n by (unfold n; lia).
  exists w'.
  assert (Hob' : only_buffers w w').
  { destruct Hob as (? & ? & ? & ? & ?). by repeat split. }
  split; [done |].
  destruct (first_failure pts (map Z.of_nat (seq 0 n))) as [e |].
  - destruct Hres as (Hr & Hw' & Hsome). split; [done |].
    assert (Hfail : _list_to_point_info (PyList pts) w = (Raise e, w')).
    { rewrite Hrun. destruct (for_each _ _ w0) as [r w1]. cbn in *. by subst. }
    split; [done |].
    intros s self. exists w'.
    destruct Hob' as (_ & _ & _ & _ & Ht).
    destruct s; cbn; unfold Drawing.polygon, Drawing.polyline, Drawing.bezier, bind;
      by rewrite Hfail.
  - destruct Hres as (Hr & Hbuf). rewrite Hbuf. split; [eauto |].
    rewrite Hrun, Hr. by rewrite take_0.
Qed.

Lemma marshalling_outcome_witness :
  exists w',
    only_buffers studio w'
    /\ _list_to_point_info (PyList [PyTuple [PyInt 1; PyInt 2]; PyInt 3]) studio
       = (Raise TypeError, w')
    /\ buffers w' !! 1%positive = Some [1; 2; 0; 0]%float.
Proof.
  destruct (marshalling_outcome [PyTuple [PyInt 1; PyInt 2]; PyInt 3] studio)
    as (w' & Hob & _ & Hres).
  exists w'. cbn in Hres. destruct Hres as [Hrun _].
  split; [done |]. split; [done |].
  vm_compute in Hrun. by injection Hrun as <-.
Defined.

(** ** Path operators: failures and chaining *)
Ltac raise_inv :=
  repeat match goal with
    | H : (if ?b then _ else _) _ = (Raise _, _) |- _ => destruct b
    | H : raise _ ?w = (Raise _, _) |- _ => by injection H as _ <-
    | H : bind (library_call _ _) _ _ = (Raise _, _) |- _ =>
        apply bind_inv in H as [(? & H & _) | (? & ? & _ & H)];
        [unfold library_call in H; by destruct (native _ _ _) | discriminate H]
    | H : bind _ _ _ = (Raise _, _) |- _ =>
        let H1 := fresh "H" in
        apply bind_inv in H as [(? & H & _) | (? & ? & H1 & H)];
        [pure_step H; by subst | pure_step H1; subst]
    end.

(** X16. A path operator that raises has changed nothing: no native
    call was made and the wand is as it was, whatever the arguments and
    whether or not the Drawing is live. *)
Theorem path_operator_all_or_nothing (parse : string -> option float)
    (c : path_call) (self : oid) (w w' : world) (e : exn) :
  run_path parse c self w = (Raise e, w') -> w' = w.
Proof.
  destruct c; cbn; intros H;
    unfold Drawing.path_start, Drawing.path_finish, Drawing.path_close,
      Drawing.path_move, Drawing.path_line, Drawing.path_horizontal_line,
      Drawing.path_vertical_line, Drawing.path_curve,
      Drawing.path_curve_to_quadratic_bezier, Drawing.path_elliptic_arc in H;
    raise_inv.
Qed.

Lemma path_operator_all_or_nothing_witness :
  fst (run_path no_parse (PathLine (PyTuple [PyFloat 1; PyStr "two"]) (PyBool false))
         1%positive studio) = Raise ValueError
  /\ snd (run_path no_parse (PathLine (PyTuple [PyFloat 1; PyStr "two"]) (PyBool false))
            1%positive studio) = studio.
Proof.
  split; [reflexivity |].
  apply (path_operator_all_or_nothing no_parse
           (PathLine (PyTuple [PyFloat 1; PyStr "two"]) (PyBool false))
           1%positive studio _ ValueError).
  reflexivity.
Defined.

Ltac run_call_trace :=
  match goal with
  | |- context [library_call ?f ?a ?w] =>
      let r := fresh "r" in let w1 := fresh "w" in let E := fresh "E" in
      destruct (library_call_ok f a w) as (r & w1 & E); rewrite E;
      apply library_call_extends in E as [? ?]
  end.

Lemma path_one_call parse c self h w :
  well_formed c -> objects w !! self = Some (Some h) ->
  exists a w',
    run_path parse c self w = (Ok (PyDrawing self), w')
    /\ trace w' = (trace w ++ [Call (path_entry_point c) (CPtr h :: a)])%list
    /\ objects w' = objects w.
Proof.
  intros Hc Hl.
  destruct c as [| | | to rel | to rel | x rel | y rel | to controls smooth rel
                | to control smooth rel | to radius rotation la cw rel];
    cbn [well_formed run_path path_entry_point] in *; unfold_path_operators.
  all: split_well_formed Hc.
  all: run_arguments Hl.
  all: unfold bind; run_call_trace.
  all: eexists _, _; (split; [reflexivity |]); split; [eassumption | done].
Qed.

(** X17. Path operators chain. On a live Drawing, any sequence of path
    operators with arguments of the documented types (an end point, a
    control point or a radius is a tuple or a list of two reals, a scalar
    is a real, and every real is an int, a bool or a float that a C double
    can hold), each invoked on what the one before returned, runs to the
    end and returns the Drawing it started from; it makes exactly one
    native call per operator, in order, each on the Drawing's wand,
    through the entry point that the operator's [relative] and [smooth]
    flags select. *)
Theorem path_chain (parse : string -> option float) (cs : list path_call)
    (self : oid) (h : handle) (w : world) :
  Forall well_formed cs -> objects w !! self = Some (Some h) ->
  exists calls w',
    chained parse cs self w (PyDrawing self) w'
    /\ calls_added w w' calls
    /\ map fn calls = map path_entry_point cs
    /\ Forall (fun c => head (args c) = Some (CPtr h)) calls.
Proof.
  intros Hcs. revert w. induction Hcs as [| c cs Hc Hcs IH]; intros w Hl.
  - exists [], w. split; [constructor |]. unfold calls_added.
    by rewrite app_nil_r.
  - destruct (path_one_call parse c self h w Hc Hl) as (a & w1 & Hrun & Ht & Ho).
    destruct (IH w1) as (calls & w' & Hch & Hadd & Hfn & Hargs); [by rewrite Ho |].
    exists (Call (path_entry_point c) (CPtr h :: a) :: calls), w'.
    split; [by econstructor |]. split; [| split].
    + unfold calls_added in *. by rewrite Hadd, Ht, <- app_assoc.
    + cbn. by rewrite Hfn.
    + by constructor.
Qed.

Lemma path_chain_witness :
  exists calls w',
    chained no_parse
      [PathStart; PathMove (PyList [PyInt 1; PyFloat 2]) (PyBool false);
       PathLine (PyTuple [PyInt 3; PyBool true]) (PyInt 1);
       PathCurve (PyTuple [PyInt 9; PyInt 9])
         (PyList [PyTuple [PyInt 4; PyInt 5]; PyList [PyFloat 6; PyInt 7]])
         PyNone (PyBool false);
       PathClose; PathFinish]
      1%positive studio (PyDrawing 1%positive) w'
    /\ calls_added studio w' calls
    /\ map fn calls
       = [DrawPathStart; DrawPathMoveToAbsolute; DrawPathLineToRelative;
          DrawPathCurveToAbsolute; DrawPathClose; DrawPathFinish]
    /\ Forall (fun c => head (args c) = Some (CPtr 1%positive)) calls.
Proof.
  apply (path_chain no_parse
           [PathStart; PathMove (PyList [PyInt 1; PyFloat 2]) (PyBool false);
            PathLine (PyTuple [PyInt 3; PyBool true]) (PyInt 1);
            PathCurve (PyTuple [PyInt 9; PyInt 9])
              (PyList [PyTuple [PyInt 4; PyInt 5]; PyList [PyFloat 6; PyInt 7]])
              PyNone (PyBool false);
            PathClose; PathFinish]
           1%positive 1%positive studio).
  - repeat (constructor; [real_arguments |]). constructor.
  - reflexivity.
Defined.

(** X18. A path operator invoked without an argument it requires (the
    end point, the coordinate of a horizontal or vertical line, the
    controls of a cubic curve, the radius of an arc) raises TypeError and
    changes nothing; the test comes before the Drawing's wand is looked
    at, so this holds of a Drawing without a live wand too. *)
Theorem path_missing_argument (parse : string -> option float) (c : path_call)
    (self : oid) (w : world) :
  missing_argument c = true ->
  run_path parse c self w = (Raise TypeError, w).
Proof.
  destruct c; cbn; try discriminate; intros H;
    unfold Drawing.path_move, Drawing.path_line, Drawing.path_horizontal_line,
      Drawing.path_vertical_line, Drawing.path_curve,
      Drawing.path_curve_to_quadratic_bezier, Drawing.path_elliptic_arc;
    try (rewrite H; reflexivity);
    apply orb_true_iff in H as [-> | ->]; try reflexivity;
    by destruct (is_None to).
Qed.

Lemma path_missing_argument_witness :
  run_path no_parse (PathCurve (PyTuple [PyFloat 1; PyFloat 2]) PyNone (PyBool true)
                       (PyBool false)) 1%positive closed_studio
    = (Raise TypeError, closed_studio).
Proof.
  apply path_missing_argument. reflexivity.
Defined.

(** X19. [path_curve_to_quadratic_bezier] reads its control point only
    when the curve is not smooth: with a truthy [smooth] the outcome is
    the same whatever [control] is (None included), and with a falsy
    [smooth] and a pair of floats as end point a missing control raises
    TypeError and changes nothing. *)
Theorem quadratic_control_only_when_sharp (parse : string -> option float)
    (self : oid) (to control control' smooth relative : pyval) (w : world) :
  (truthy smooth = true ->
     Drawing.path_curve_to_quadratic_bezier parse self to control smooth relative w
     = Drawing.path_curve_to_quadratic_bezier parse self to control' smooth relative w)
  /\ (truthy smooth = false -> float_pair to ->
     Drawing.path_curve_to_quadratic_bezier parse self to PyNone smooth relative w
     = (Raise TypeError, w)).
Proof.
  split.
  - intros Hs. unfold Drawing.path_curve_to_quadratic_bezier.
    destruct (is_None to); [done |]. unfold bind.
    destruct (lift (unpack2 to) w) as [[xy | e] w1]; [| done]. by rewrite Hs.
  - intros Hs (x & y & ->). unfold Drawing.path_curve_to_quadratic_bezier.
    cbn. by rewrite Hs.
Qed.

Lemma quadratic_control_only_when_sharp_witness :
  Drawing.path_curve_to_quadratic_bezier no_parse 1%positive
    (PyTuple [PyFloat 1; PyFloat 2]) PyNone (PyBool true) (PyBool false) studio
  = Drawing.path_curve_to_quadratic_bezier no_parse 1%positive
      (PyTuple [PyFloat 1; PyFloat 2]) (PyStr "ignored") (PyBool true) (PyBool false) studio
  /\ Drawing.path_curve_to_quadratic_bezier no_parse 1%positive
       (PyTuple [PyFloat 1; PyFloat 2]) PyNone (PyBool false) (PyBool false) studio
     = (Raise TypeError, studio).
Proof.
  split.
  - apply (proj1 (quadratic_control_only_when_sharp no_parse 1%positive
                    (PyTuple [PyFloat 1; PyFloat 2]) PyNone (PyStr "ignored")
                    (PyBool true) (PyBool false) studio)).
    reflexivity.
  - apply (proj2 (quadratic_control_only_when_sharp no_parse 1%positive
                    (PyTuple [PyFloat 1; PyFloat 2]) PyNone PyNone
                    (PyBool false) (PyBool false) studio)).
    + reflexivity.
    + eexists _, _. reflexivity.
Defined.

(** ** A Drawing without a live wand *)

Lemma bind_resource_closed {A} self (k : handle -> M A) w :
  closed self w -> bind (resource self) k w = (Raise DestroyedResourceError, w).
Proof. intros Hc. unfold bind. by rewrite (resource_closed _ _ Hc). Qed.

Lemma path_closed parse c self w :
  closed self w -> well_formed c ->
  run_path parse c self w = (Raise DestroyedResourceError, w).
Proof.
  intros Hcl Hc.
  destruct c as [| | | to rel | to rel | x rel | y rel | to controls smooth rel
                | to control smooth rel | to radius rotation la cw rel];
    cbn [well_formed run_path] in *; unfold_path_operators.
  all: split_well_formed Hc.
  all: repeat first [ erewrite bind_unpack2 by eassumption
                    | rewrite (bind_resource_closed _ _ _ Hcl) ]; cbn [fst snd].
  all: reflexivity.
Qed.

(** X20. On a Drawing that holds no live wand, every enumerated-option
    getter, the font_size and stroke_width getters, their setters on a
    valid size, every path operator with arguments of the documented
    types (tuples or lists of two reals, and real scalars, that a C double
    can hold) and rectangle with valid integer arguments raise
    DestroyedResourceError and change nothing: none reaches the native
    library. *)
Theorem closed_drawing_raises (parse : string -> option float) (self : oid)
    (w : world) :
  closed self w ->
  (forall p, getter p self w = (Raise DestroyedResourceError, w))
  /\ Drawing.font_size self w = (Raise DestroyedResourceError, w)
  /\ Drawing.stroke_width self w = (Raise DestroyedResourceError, w)
  /\ (forall v f, py_lt v (PyFloat 0) = inr false -> c_double v = inr f ->
        Drawing.font_size_setter self v w = (Raise DestroyedResourceError, w)
        /\ Drawing.stroke_width_setter self v w = (Raise DestroyedResourceError, w))
  /\ (forall c, well_formed c ->
        run_path parse c self w = (Raise DestroyedResourceError, w))
  /\ (forall l t wd ht : Z, 0 <= wd -> 0 <= ht ->
        Drawing.rectangle self (PyInt l) (PyInt t) PyNone PyNone (PyInt wd) (PyInt ht) w
          = (Raise DestroyedResourceError, w)).
Proof.
  intros Hc. pose proof (resource_closed self w Hc) as Hr.
  split; [| split; [| split; [| split; [| split]]]].
  - intros p. rewrite getter_is_shape. unfold getter_shape, bind. by rewrite Hr.
  - unfold Drawing.font_size, bind. by rewrite Hr.
  - unfold Drawing.stroke_width, bind. by rewrite Hr.
  - intros v f Hlt Hcd.
    unfold Drawing.font_size_setter, Drawing.stroke_width_setter.
    rewrite (c_double_is_Real _ _ Hcd). cbn [negb]. unfold bind.
    rewrite Hlt. cbn. by rewrite Hr.
  - intros c Hwf. by apply path_closed.
  - intros l t wd ht Hwd Hht.
    rewrite (rectangle_width_form self _ _ _ _ (PyInt (l + wd)) (PyInt (t + ht)));
      try reflexivity.
    + unfold draw_rectangle, bind. by rewrite Hr.
    + unfold py_lt. cbn. by destruct (Z.ltb_spec wd 0); [lia |].
    + unfold py_lt. cbn. by destruct (Z.ltb_spec ht 0); [lia |].
Qed.

Lemma closed_drawing_raises_witness :
  getter P_gravity 1%positive closed_studio = (Raise DestroyedResourceError, closed_studio)
  /\ Drawing.font_size_setter 1%positive (PyInt 12) closed_studio
     = (Raise DestroyedResourceError, closed_studio)
  /\ run_path no_parse (PathLine (PyList [PyInt 3; PyBool true]) (PyBool false))
       1%positive closed_studio
     = (Raise DestroyedResourceError, closed_studio)
  /\ Drawing.rectangle 1%positive (PyInt 0) (PyInt 0) PyNone PyNone (PyInt 10) (PyInt 20)
       closed_studio = (Raise DestroyedResourceError, closed_studio).
Proof.
  destruct (closed_drawing_raises no_parse 1%positive closed_studio closed_studio_closed)
    as (Hget & _ & _ & Hset & Hpath & Hrect).
  split; [apply Hget |]. split; [| split].
  - apply (Hset (PyInt 12) 12%float); reflexivity.
  - apply Hpath. real_arguments.
  - apply Hrect; lia.
Defined.
